(** * QuickFix: the client-side stores (complaint and chatbot contexts)

    A shallow embedding of the two reducer-driven React contexts of the
    front end and of the service functions they await:

    - [ComplaintContext]  (reducer [complaintReducer], operations
      [submitComplaint], [updateComplaint], [deleteComplaint], ...),
    - [ChatbotContext]    (reducer [chatbotReducer], operations
      [initializeChatbot], [sendMessage], [startNewConversation],
      [endConversation]),
    - [complaintService] and [chatbotService], the axios wrappers.

    JavaScript values that the code inspects dynamically ([a || b],
    [x.field], [x?.field]) are kept dynamic ([jsval]); an [async] function
    is a state-and-exception computation over the store, the log of the
    requests sent so far and the clock, and every awaited HTTP exchange is
    an explicit argument giving how axios settled. *)

From Stdlib Require Import ZArith String List Lia.
From stdpp Require Import base option gmap strings list fin_maps.
Import ListNotations.
Local Open Scope string_scope.
Local Open Scope Z_scope.

(** ** JavaScript values *)

Module JS.

(** Numbers: the stores only count, so a number is an integer or NaN
    (integers stay far below 2^53, where doubles are exact). *)
Inductive jsnum : Type :=
| Fin (n : Z)
| NaN.

#[warnings="-register-all"]
Inductive jsval : Type :=
| JUndefined
| JNull
| JBool (b : bool)
| JNum (x : jsnum)
| JStr (s : string)
| JObj (fields : list (string * jsval))
| JArr (items : list jsval).

(** ToBoolean. *)
Definition truthy (v : jsval) : bool :=
  match v with
  | JUndefined | JNull => false
  | JBool b => b
  | JNum (Fin n) => negb (n =? 0)
  | JNum NaN => false
  | JStr s => negb (String.eqb s "")
  | JObj _ | JArr _ => true
  end.

(** [a || b] *)
Definition js_or (a b : jsval) : jsval := if truthy a then a else b.

Definition nullish (v : jsval) : bool :=
  match v with
  | JUndefined | JNull => true
  | _ => false
  end.

(** A parameter declared [p = null]: the default replaces [undefined]. *)
Definition default_null (v : jsval) : jsval :=
  match v with
  | JUndefined => JNull
  | _ => v
  end.

Fixpoint own_property (fields : list (string * jsval)) (k : string) : jsval :=
  match fields with
  | [] => JUndefined
  | (k', v) :: rest => if String.eqb k' k then v else own_property rest k
  end.

(** The object a failed property read throws. *)
Definition TypeError (base : jsval) (k : string) : jsval :=
  JObj [ ("name", JStr "TypeError");
         ("message",
          JStr ("Cannot read properties of "
                ++ (match base with JNull => "null" | _ => "undefined" end)
                ++ " (reading '" ++ k ++ "')")) ].

(** [v.k]: [inl] the value read, [inr] the TypeError thrown when [v] is
    [null] or [undefined].  The stores read named fields only (never an
    index); primitives have none of them. *)
Definition member (v : jsval) (k : string) : jsval + jsval :=
  match v with
  | JUndefined | JNull => inr (TypeError v k)
  | JObj fields => inl (own_property fields k)
  | _ => inl JUndefined
  end.

(** [v?.k] *)
Definition opt_member (v : jsval) (k : string) : jsval :=
  match v with
  | JObj fields => own_property fields k
  | _ => JUndefined
  end.

(** [Number.isSafeInteger]: the integers that doubles hold exactly and on
    which [+ 1] and [- 1] are exact as long as the result is safe too. *)
Definition safe_integer (n : Z) : Prop :=
  -9007199254740991 <= n <= 9007199254740991.

(** [x + k] and [x - k] on a stats entry; a missing entry reads
    [undefined], whose ToNumber is NaN.  The sum is the integer sum: it is
    the sum of the doubles when the operand and the result are safe
    integers, which is what the statements about sums assume. *)
Definition num_add (x : option jsnum) (k : Z) : jsnum :=
  match x with
  | Some (Fin n) => Fin (n + k)
  | _ => NaN
  end.

(** [Math.max(0, x)] *)
Definition Math_max0 (x : jsnum) : jsnum :=
  match x with
  | Fin n => Fin (Z.max 0 n)
  | NaN => NaN
  end.

(** ToPropertyKey of [c?.status] in a computed key: [undefined] becomes
    the string ["undefined"]. *)
Definition property_key (k : option string) : string :=
  match k with
  | Some s => s
  | None => "undefined"
  end.

End JS.
Import JS.

(** ** Async operations

    [Op W A]: run on a world [W], settle with a value or a thrown value,
    and leave a world behind (what was dispatched before a throw stays
    dispatched). *)

Inductive settled (A : Type) : Type :=
| Fulfilled (a : A)
| Rejected (e : jsval).
Arguments Fulfilled {A} a.
Arguments Rejected {A} e.

Definition Op (W A : Type) : Type := W -> settled A * W.

Definition ret {W A} (a : A) : Op W A := fun w => (Fulfilled a, w).

Definition throw {W A} (e : jsval) : Op W A := fun w => (Rejected e, w).

Definition bind {W A B} (m : Op W A) (k : A -> Op W B) : Op W B :=
  fun w =>
    match m w with
    | (Fulfilled a, w') => k a w'
    | (Rejected e, w') => (Rejected e, w')
    end.

(** [try { body } catch (error) { handler }] *)
Definition try_catch {W A} (body : Op W A) (handler : jsval -> Op W A) : Op W A :=
  fun w =>
    match body w with
    | (Fulfilled a, w') => (Fulfilled a, w')
    | (Rejected e, w') => handler e w'
    end.

(** [v.k] inside an operation. *)
Definition get {W} (v : jsval) (k : string) : Op W jsval :=
  fun w =>
    match member v k with
    | inl x => (Fulfilled x, w)
    | inr e => (Rejected e, w)
    end.

Declare Scope op_scope.
Delimit Scope op_scope with op.
Notation "x <- m ;; k" := (bind m (fun x => k))
  (at level 90, m at next level, right associativity) : op_scope.
Notation "m ;;; k" := (bind m (fun _ => k))
  (at level 90, right associativity) : op_scope.

(** How axios settled an exchange: [Ok data] is a response whose [.data]
    is [data]; [Err d] is a rejection with [error.response?.data = d]
    ([JUndefined] when there was no response at all). *)
Inductive axios (A : Type) : Type :=
| Ok (data : A)
| Err (response_data : jsval).
Arguments Ok {A} data.
Arguments Err {A} response_data.

(** The world of a provider: its reducer state, the requests sent, and
    the wall clock in milliseconds. *)
Record world (S R : Type) : Type := World {
  store : S;
  sent : list R;
  clock : Z
}.
Arguments World {S R}.
Arguments store {S R}.
Arguments sent {S R}.
Arguments clock {S R}.

(** A reply is how axios settled plus the time at which it did. *)
Record reply (A : Type) : Type := Reply {
  settle : axios A;
  arrival : Z
}.
Arguments Reply {A}.
Arguments settle {A}.
Arguments arrival {A}.

(** The rejection value of axios: an Error whose [response.data] is what
    the server answered ([undefined] when nothing was received, which
    [error.response?.data] cannot tell from an absent [response]). *)
Definition AxiosError (d : jsval) : jsval :=
  JObj [("name", JStr "AxiosError"); ("response", JObj [("data", d)])].

(** [await client.verb(...)], then [response.data]. *)
Definition await_axios {S R A} (rq : R) (r : reply A) : Op (world S R) A :=
  fun w =>
    let w' := {| store := store w; sent := sent w ++ [rq]; clock := arrival r |} in
    match settle r with
    | Ok data => (Fulfilled data, w')
    | Err d => (Rejected (AxiosError d), w')
    end.

(** The services' [catch (error) { throw error.response?.data || fallback }]. *)
Definition rethrow {W A} (fallback : jsval) (error : jsval) : Op W A :=
  (response <- get error "response" ;;
   throw (js_or (opt_member response "data") fallback))%op.

(** [Date.now()] *)
Definition Date_now {S R} : Op (world S R) Z :=
  fun w => (Fulfilled (clock w), w).

(** ** complaintService (the axios wrapper of the complaints API) *)

Module complaintService.

(** Complaint ids are opaque: a number or a string; [===] on them is
    plain equality. *)
Inductive ident : Type :=
| IdNum (n : Z)
| IdStr (s : string).

#[global] Instance ident_eq_dec : EqDecision ident.
Proof. solve_decision. Defined.

Record Complaint : Type := mkComplaint {
  id : ident;
  title : string;
  category : string;
  priority : string;
  status : string;
  description : string;
  location : string;
  submittedAt : string;
  updatedAt : string
}.

(** What the form submits: text fields and attached files. *)
Record Draft : Type := mkDraft {
  fields : list (string * string);
  attachments : list string
}.

(** The body of a list response: [{complaints, pagination?}] (a field
    the server left out is [None]). *)
Record ComplaintPage : Type := mkPage {
  page_complaints : option (list Complaint);
  page_pagination : option (gmap string jsval)
}.

Inductive request : Type :=
| POST_complaints (formData : Draft)
| GET_complaints (filters : gmap string jsval)
| GET_complaint (complaintId : ident)
| PUT_complaint (complaintId : ident) (updateData : gmap string jsval)
| DELETE_complaint (complaintId : ident)
| GET_stats
| GET_search (searchTerm : string) (filters : gmap string jsval).

Definition failure (message : string) : jsval := JObj [("message", JStr message)].

Section Service.
Context {S : Type}.
Local Abbreviation W := (world S request).

Definition submitComplaint (complaintData : Draft) (r : reply Complaint) : Op W Complaint :=
  try_catch (await_axios (POST_complaints complaintData) r) (rethrow (failure "Failed to submit complaint")).

Definition getComplaints (filters : gmap string jsval) (r : reply ComplaintPage)
  : Op W ComplaintPage :=
  try_catch (await_axios (GET_complaints filters) r) (rethrow (failure "Failed to fetch complaints")).

Definition getComplaintById (complaintId : ident) (r : reply Complaint) : Op W Complaint :=
  try_catch (await_axios (GET_complaint complaintId) r) (rethrow (failure "Failed to fetch complaint details")).

Definition updateComplaint (complaintId : ident) (updateData : gmap string jsval)
           (r : reply Complaint) : Op W Complaint :=
  try_catch (await_axios (PUT_complaint complaintId updateData) r) (rethrow (failure "Failed to update complaint")).

Definition deleteComplaint (complaintId : ident) (r : reply jsval) : Op W jsval :=
  try_catch (await_axios (DELETE_complaint complaintId) r) (rethrow (failure "Failed to delete complaint")).

Definition getComplaintStats (r : reply (gmap string jsnum)) : Op W (gmap string jsnum) :=
  try_catch (await_axios GET_stats r) (rethrow (failure "Failed to fetch complaint statistics")).
End Service.

(** *** The remaining list request *)

Section Search.
Context {S : Type}.
Local Abbreviation W := (world S request).

Definition searchComplaints (searchTerm : string) (filters : gmap string jsval)
           (r : reply ComplaintPage) : Op W ComplaintPage :=
  try_catch (await_axios (GET_search searchTerm filters) r)
            (rethrow (failure "Failed to search complaints")).
End Search.

End complaintService.

(** ** ComplaintContext (the Domain Store) *)

Module ComplaintContext.
Import complaintService.

Record state : Type := State {
  complaints : list Complaint;
  currentComplaint : option Complaint;
  stats : gmap string jsnum;
  filters : gmap string jsval;
  isLoading : bool;
  error : jsval;
  pagination : gmap string jsval
}.

Definition initialState : state :=
  {| complaints := [];
     currentComplaint := None;
     stats := <["total" := Fin 0]> (<["pending" := Fin 0]>
                (<["resolved" := Fin 0]> (<["rejected" := Fin 0]> ∅)));
     filters := <["status" := JStr ""]> (<["category" := JStr ""]>
                  (<["priority" := JStr ""]> (<["searchTerm" := JStr ""]> ∅)));
     isLoading := false;
     error := JNull;
     pagination := <["page" := JNum (Fin 1)]> (<["limit" := JNum (Fin 10)]>
                     (<["total" := JNum (Fin 0)]> (<["totalPages" := JNum (Fin 0)]> ∅))) |}.

Inductive action : Type :=
| SET_LOADING (payload : bool)
| SET_COMPLAINTS (payload : list Complaint)
| SET_CURRENT_COMPLAINT (payload : Complaint)
| ADD_COMPLAINT (payload : Complaint)
| UPDATE_COMPLAINT (payload : Complaint)
| DELETE_COMPLAINT (payload : ident)
| SET_STATS (payload : gmap string jsnum)
| SET_FILTERS (payload : gmap string jsval)
| SET_ERROR (payload : jsval)
| CLEAR_ERROR
| SET_PAGINATION (payload : gmap string jsval)
| RESET_STATE.

(** [c.id === x] *)
Definition has_id (x : ident) (c : Complaint) : bool := bool_decide (id c = x).

(** [state.currentComplaint?.id === x]: [null] never matches. *)
Definition current_has_id (cur : option Complaint) (x : ident) : bool :=
  match cur with
  | Some c => has_id x c
  | None => false
  end.

Definition complaintReducer (st : state) (a : action) : state :=
  match a with
  | SET_LOADING payload =>
      {| complaints := complaints st; currentComplaint := currentComplaint st;
         stats := stats st; filters := filters st;
         isLoading := payload;
         error := error st; pagination := pagination st |}
  | SET_COMPLAINTS payload =>
      {| complaints := payload;
         currentComplaint := currentComplaint st;
         stats := stats st; filters := filters st;
         isLoading := false;
         error := JNull;
         pagination := pagination st |}
  | SET_CURRENT_COMPLAINT payload =>
      {| complaints := complaints st;
         currentComplaint := Some payload;
         stats := stats st; filters := filters st;
         isLoading := false;
         error := JNull;
         pagination := pagination st |}
  | ADD_COMPLAINT payload =>
      {| complaints := payload :: complaints st;
         currentComplaint := currentComplaint st;
         stats := <["pending" := num_add (stats st !! "pending") 1]>
                    (<["total" := num_add (stats st !! "total") 1]> (stats st));
         filters := filters st; isLoading := isLoading st;
         error := error st; pagination := pagination st |}
  | UPDATE_COMPLAINT payload =>
      {| complaints :=
           List.map (fun complaint =>
                       if has_id (id payload) complaint then payload else complaint)
                    (complaints st);
         currentComplaint :=
           if current_has_id (currentComplaint st) (id payload)
           then Some payload
           else currentComplaint st;
         stats := stats st; filters := filters st; isLoading := isLoading st;
         error := error st; pagination := pagination st |}
  | DELETE_COMPLAINT payload =>
      let deletedComplaint := List.find (has_id payload) (complaints st) in
      let bucket := property_key (status <$> deletedComplaint) in
      {| complaints :=
           List.filter (fun complaint => negb (has_id payload complaint)) (complaints st);
         currentComplaint :=
           if current_has_id (currentComplaint st) payload
           then None
           else currentComplaint st;
         stats := <[bucket := Math_max0 (num_add (stats st !! bucket) (-1))]>
                    (<["total" := num_add (stats st !! "total") (-1)]> (stats st));
         filters := filters st; isLoading := isLoading st;
         error := error st; pagination := pagination st |}
  | SET_STATS payload =>
      {| complaints := complaints st; currentComplaint := currentComplaint st;
         stats := payload;
         filters := filters st; isLoading := isLoading st;
         error := error st; pagination := pagination st |}
  | SET_FILTERS payload =>
      {| complaints := complaints st; currentComplaint := currentComplaint st;
         stats := stats st;
         filters := payload ∪ filters st;
         isLoading := isLoading st; error := error st; pagination := pagination st |}
  | SET_ERROR payload =>
      {| complaints := complaints st; currentComplaint := currentComplaint st;
         stats := stats st; filters := filters st;
         isLoading := false;
         error := payload;
         pagination := pagination st |}
  | CLEAR_ERROR =>
      {| complaints := complaints st; currentComplaint := currentComplaint st;
         stats := stats st; filters := filters st; isLoading := isLoading st;
         error := JNull;
         pagination := pagination st |}
  | SET_PAGINATION payload =>
      {| complaints := complaints st; currentComplaint := currentComplaint st;
         stats := stats st; filters := filters st; isLoading := isLoading st;
         error := error st;
         pagination := payload ∪ pagination st |}
  | RESET_STATE => initialState
  end.

Local Abbreviation W := (world state request).

Definition dispatch (a : action) : Op W unit :=
  fun w =>
    (Fulfilled tt,
     {| store := complaintReducer (store w) a; sent := sent w; clock := clock w |}).

(** The shared [catch (error)] of the operations:
    [dispatch SET_ERROR (error.message || fallback); throw error]. *)
Definition fail_with {A} (fallback : string) (error : jsval) : Op W A :=
  (message <- get error "message" ;;
   dispatch (SET_ERROR (js_or message (JStr fallback))) ;;;
   throw error)%op.

Definition fetchComplaints (filters : gmap string jsval) (r : reply ComplaintPage)
  : Op W ComplaintPage :=
  try_catch
    (dispatch (SET_LOADING true) ;;;
     dispatch CLEAR_ERROR ;;;
     response <- getComplaints filters r ;;
     dispatch (SET_COMPLAINTS (default [] (page_complaints response))) ;;;
     match page_pagination response with
     | Some pagination => dispatch (SET_PAGINATION pagination)
     | None => ret tt
     end ;;;
     ret response)%op
    (fail_with "Failed to fetch complaints").

Definition fetchComplaintById (complaintId : ident) (r : reply Complaint) : Op W Complaint :=
  try_catch
    (dispatch (SET_LOADING true) ;;;
     dispatch CLEAR_ERROR ;;;
     complaint <- getComplaintById complaintId r ;;
     dispatch (SET_CURRENT_COMPLAINT complaint) ;;;
     ret complaint)%op
    (fail_with "Failed to fetch complaint").

Definition submitComplaint (complaintData : Draft) (r : reply Complaint) : Op W Complaint :=
  try_catch
    (dispatch (SET_LOADING true) ;;;
     dispatch CLEAR_ERROR ;;;
     newComplaint <- complaintService.submitComplaint complaintData r ;;
     dispatch (ADD_COMPLAINT newComplaint) ;;;
     dispatch (SET_LOADING false) ;;;
     ret newComplaint)%op
    (fail_with "Failed to submit complaint").

Definition updateComplaint (complaintId : ident) (updateData : gmap string jsval)
           (r : reply Complaint) : Op W Complaint :=
  try_catch
    (dispatch (SET_LOADING true) ;;;
     dispatch CLEAR_ERROR ;;;
     updatedComplaint <- complaintService.updateComplaint complaintId updateData r ;;
     dispatch (UPDATE_COMPLAINT updatedComplaint) ;;;
     dispatch (SET_LOADING false) ;;;
     ret updatedComplaint)%op
    (fail_with "Failed to update complaint").

Definition deleteComplaint (complaintId : ident) (r : reply jsval) : Op W unit :=
  try_catch
    (dispatch (SET_LOADING true) ;;;
     dispatch CLEAR_ERROR ;;;
     _ <- complaintService.deleteComplaint complaintId r ;;
     dispatch (DELETE_COMPLAINT complaintId) ;;;
     dispatch (SET_LOADING false))%op
    (fail_with "Failed to delete complaint").

(** [fetchStats]: a failure is logged and swallowed; the operation then
    resolves with [undefined]. *)
Definition fetchStats (r : reply (gmap string jsnum)) : Op W (option (gmap string jsnum)) :=
  try_catch
    (stats <- getComplaintStats r ;;
     dispatch (SET_STATS stats) ;;;
     ret (Some stats))%op
    (fun _ => ret None).

(** A submit that the server accepts with complaint [c] at time [t], and
    the complaint it returns. *)
Definition accepted (call : Draft * Complaint * Z) : Draft * reply Complaint :=
  let '(complaintData, c, t) := call in (complaintData, Reply (Ok c) t).

Definition returned (call : Draft * Complaint * Z) : Complaint :=
  let '(_, c, _) := call in c.

(** Successive [submit] calls, each awaited before the next. *)
Fixpoint submitAll (calls : list (Draft * reply Complaint)) : Op W unit :=
  match calls with
  | [] => ret tt
  | (complaintData, r) :: rest =>
      (_ <- submitComplaint complaintData r ;; submitAll rest)%op
  end.

(** ** Sample data *)

Definition leak : Complaint :=
  {| id := IdNum 1; title := "Water leakage in building A";
     category := "Infrastructure"; priority := "high"; status := "pending";
     description := "Severe water leakage causing damage to property";
     location := "Building A, Floor 3";
     submittedAt := "2025-08-20T10:30:00Z"; updatedAt := "2025-08-20T10:30:00Z" |}.

Definition leak_resolved : Complaint :=
  {| id := IdNum 1; title := "Water leakage in building A";
     category := "Infrastructure"; priority := "high"; status := "resolved";
     description := "Severe water leakage causing damage to property";
     location := "Building A, Floor 3";
     submittedAt := "2025-08-20T10:30:00Z"; updatedAt := "2025-08-21T09:45:00Z" |}.

Definition fresh_store : world state request :=
  {| store := initialState; sent := []; clock := 0 |}.

(** The provider after [fetchComplaints({})] answered with one pending
    complaint (no stats were fetched: they are still the initial zeros). *)
Definition listed : world state request :=
  snd (fetchComplaints ∅ (Reply (Ok (mkPage (Some [leak]) None)) 10) fresh_store).

(** The provider after [fetchComplaintById(1)]: a current complaint, and
    an empty list. *)
Definition viewing : world state request :=
  snd (fetchComplaintById (IdNum 1) (Reply (Ok leak) 10) fresh_store).

(** The two counts that [submit] increments are numbers. *)
Definition counted (m : gmap string jsnum) : Prop :=
  (exists n : Z, m !! "total" = Some (Fin n)) /\
  (exists k : Z, m !! "pending" = Some (Fin k)).

(** ** The remaining operations of the provider *)

Definition searchComplaints (searchTerm : string) (filters : gmap string jsval)
           (r : reply ComplaintPage) : Op (world state request) ComplaintPage :=
  try_catch
    (dispatch (SET_LOADING true) ;;;
     dispatch CLEAR_ERROR ;;;
     response <- complaintService.searchComplaints searchTerm filters r ;;
     dispatch (SET_COMPLAINTS (default [] (page_complaints response))) ;;;
     ret response)%op
    (fail_with "Failed to search complaints").

Definition setFilters (filters : gmap string jsval) : Op (world state request) unit :=
  dispatch (SET_FILTERS filters).

Definition clearError : Op (world state request) unit :=
  dispatch CLEAR_ERROR.

Definition resetState : Op (world state request) unit :=
  dispatch RESET_STATE.

(** The states the reducer goes through on a list of actions. *)
Definition reduceAll (st : state) (actions : list action) : state :=
  fold_left complaintReducer actions st.

(** A SET_STATS whose payload has numeric [total] and [pending]; any
    other action. *)
Definition well_counted (a : action) : Prop :=
  match a with
  | SET_STATS payload => counted payload
  | _ => True
  end.

(** ** A session of the provider

    One entry per call a consumer makes, with the reply that settles its
    request; each call is awaited before the next one is made, and a call
    that rejects does not stop the session. *)

Inductive call : Type :=
| FetchComplaints (filters : gmap string jsval) (r : reply ComplaintPage)
| FetchComplaintById (complaintId : ident) (r : reply Complaint)
| SubmitComplaint (complaintData : Draft) (r : reply Complaint)
| UpdateComplaint (complaintId : ident) (updateData : gmap string jsval) (r : reply Complaint)
| DeleteComplaint (complaintId : ident) (r : reply jsval)
| FetchStats (r : reply (gmap string jsnum))
| SearchComplaints (searchTerm : string) (filters : gmap string jsval) (r : reply ComplaintPage)
| SetFilters (filters : gmap string jsval)
| ClearError
| ResetState.

(** Forget the value an operation resolves with. *)
Definition settles {A} (m : Op (world state request) A) : Op (world state request) unit :=
  fun w =>
    match m w with
    | (Fulfilled _, w') => (Fulfilled tt, w')
    | (Rejected e, w') => (Rejected e, w')
    end.

Definition perform (c : call) : Op (world state request) unit :=
  match c with
  | FetchComplaints filters r => settles (fetchComplaints filters r)
  | FetchComplaintById complaintId r => settles (fetchComplaintById complaintId r)
  | SubmitComplaint complaintData r => settles (submitComplaint complaintData r)
  | UpdateComplaint complaintId updateData r =>
      settles (updateComplaint complaintId updateData r)
  | DeleteComplaint complaintId r => deleteComplaint complaintId r
  | FetchStats r => settles (fetchStats r)
  | SearchComplaints searchTerm filters r => settles (searchComplaints searchTerm filters r)
  | SetFilters filters => setFilters filters
  | ClearError => clearError
  | ResetState => resetState
  end.

Definition session (calls : list call) (w : world state request) : world state request :=
  fold_left (fun w c => snd (perform c w)) calls w.

(** The calls that await a request and raise the loading flag for it. *)
Definition loads (c : call) : bool :=
  match c with
  | FetchComplaints _ _ | FetchComplaintById _ _ | SubmitComplaint _ _
  | UpdateComplaint _ _ _ | DeleteComplaint _ _ | SearchComplaints _ _ _ => true
  | _ => false
  end.

(** The calls that send a request. *)
Definition remote (c : call) : bool :=
  match c with
  | SetFilters _ | ClearError | ResetState => false
  | _ => true
  end.

(** A stats reply whose body, if any, has numeric [total] and
    [pending]. *)
Definition counted_reply (c : call) : Prop :=
  match c with
  | FetchStats r =>
      match settle r with
      | Ok payload => counted payload
      | Err _ => True
      end
  | _ => True
  end.

(** The error body of the reply of a call ([None]: the request went
    through, or the call sends none). *)
Definition rejection (c : call) : option jsval :=
  let body {A} (r : reply A) : option jsval :=
    match settle r with
    | Ok _ => None
    | Err d => Some d
    end in
  match c with
  | FetchComplaints _ r | SearchComplaints _ _ r => body r
  | FetchComplaintById _ r | SubmitComplaint _ r | UpdateComplaint _ _ r => body r
  | DeleteComplaint _ r => body r
  | FetchStats r => body r
  | SetFilters _ | ClearError | ResetState => None
  end.

(** The message of the object the service throws when the failed
    response has no usable body, and the message the provider falls back
    on when what was thrown has none. *)
Definition service_fallback (c : call) : string :=
  match c with
  | FetchComplaints _ _ => "Failed to fetch complaints"
  | FetchComplaintById _ _ => "Failed to fetch complaint details"
  | SubmitComplaint _ _ => "Failed to submit complaint"
  | UpdateComplaint _ _ _ => "Failed to update complaint"
  | DeleteComplaint _ _ => "Failed to delete complaint"
  | FetchStats _ => "Failed to fetch complaint statistics"
  | SearchComplaints _ _ _ => "Failed to search complaints"
  | SetFilters _ | ClearError | ResetState => ""
  end.

Definition context_fallback (c : call) : string :=
  match c with
  | FetchComplaints _ _ => "Failed to fetch complaints"
  | FetchComplaintById _ _ => "Failed to fetch complaint"
  | SubmitComplaint _ _ => "Failed to submit complaint"
  | UpdateComplaint _ _ _ => "Failed to update complaint"
  | DeleteComplaint _ _ => "Failed to delete complaint"
  | SearchComplaints _ _ _ => "Failed to search complaints"
  | FetchStats _ | SetFilters _ | ClearError | ResetState => ""
  end.

End ComplaintContext.

(** ** chatbotService (the axios wrapper of the AI service) *)

Module chatbotService.

Inductive request : Type :=
| POST_message (message conversationId : jsval) (timestamp : Z)
| POST_conversation (initialMessage : jsval)
| POST_conversation_end (conversationId : jsval)
| GET_capabilities
| POST_feedback (conversationId feedback : jsval).

Definition failure (message : string) : jsval := JObj [("message", JStr message)].

Definition sendMessage_failure : jsval :=
  JObj [("message", JStr "Failed to send message to chatbot");
        ("response",
         JStr "I apologize, but I'm having trouble processing your request right now. Please try again later or contact support.")].

Definition defaultCapabilities : jsval :=
  JObj [("capabilities",
         JArr [JStr "Basic Q&A"; JStr "Complaint Guidance";
               JStr "Status Inquiries"; JStr "General Information"]);
        ("features",
         JObj [("intentClassification", JBool false);
               ("sentimentAnalysis", JBool false);
               ("entityExtraction", JBool false);
               ("multilingual", JBool false)])].

Section Service.
Context {S : Type}.
Local Abbreviation W := (world S request).

Definition sendMessage (message conversationId : jsval) (r : reply jsval) : Op W jsval :=
  try_catch
    (timestamp <- Date_now ;;
     await_axios (POST_message message (default_null conversationId) timestamp) r)%op
    (rethrow sendMessage_failure).

Definition startConversation (initialMessage : jsval) (r : reply jsval) : Op W jsval :=
  try_catch
    (await_axios (POST_conversation (default_null initialMessage)) r)
    (rethrow (failure "Failed to start conversation")).

Definition endConversation (conversationId : jsval) (r : reply jsval) : Op W jsval :=
  try_catch
    (await_axios (POST_conversation_end conversationId) r)
    (rethrow (failure "Failed to end conversation")).

Definition reportInteraction (conversationId feedback : jsval) (r : reply jsval) : Op W jsval :=
  try_catch
    (await_axios (POST_feedback conversationId feedback) r)
    (rethrow (failure "Failed to report interaction")).

(** The one service function that swallows the failure. *)
Definition getCapabilities (r : reply jsval) : Op W jsval :=
  try_catch
    (await_axios GET_capabilities r)
    (fun _ => ret defaultCapabilities).
End Service.

(** *** The endpoints of the remaining callbacks *)

Inductive query : Type :=
| GET_conversation (conversationId : jsval)
| POST_intent (text : jsval)
| POST_sentiment (text : jsval)
| POST_complaint_suggestions (partialComplaint : jsval).

Section Queries.
Context {S : Type}.
Local Abbreviation W := (world S query).

Definition getConversationHistory (conversationId : jsval) (r : reply jsval) : Op W jsval :=
  try_catch
    (await_axios (GET_conversation conversationId) r)
    (rethrow (failure "Failed to fetch conversation history")).

Definition classifyIntent (message : jsval) (r : reply jsval) : Op W jsval :=
  try_catch
    (await_axios (POST_intent message) r)
    (rethrow (failure "Failed to classify intent")).

Definition analyzeSentiment (message : jsval) (r : reply jsval) : Op W jsval :=
  try_catch
    (await_axios (POST_sentiment message) r)
    (rethrow (failure "Failed to analyze sentiment")).

Definition getComplaintSuggestions (partialComplaint : jsval) (r : reply jsval) : Op W jsval :=
  try_catch
    (await_axios (POST_complaint_suggestions partialComplaint) r)
    (rethrow (failure "Failed to get complaint suggestions")).
End Queries.

End chatbotService.

(** ** ChatbotContext (the Conversation Store) *)

Module ChatbotContext.
Import chatbotService.

Inductive Sender : Type := user | bot.

(** A transcript entry; an optional field that the literal leaves out
    reads [JUndefined] ([isError]: [false]). *)
Record Message : Type := mkMessage {
  id : Z;
  text : jsval;
  sender : Sender;
  timestamp : Z;
  intent : jsval;
  sentiment : jsval;
  entities : jsval;
  isError : bool
}.

Record state : Type := State {
  messages : list Message;
  currentConversationId : jsval;
  isTyping : bool;
  isConnected : bool;
  error : jsval;
  suggestions : jsval;
  conversationHistory : jsval;
  capabilities : jsval
}.

Definition initialState : state :=
  {| messages := [];
     currentConversationId := JNull;
     isTyping := false;
     isConnected := true;
     error := JNull;
     suggestions := JArr [];
     conversationHistory := JArr [];
     capabilities :=
       JObj [("intentClassification", JBool false);
             ("sentimentAnalysis", JBool false);
             ("entityExtraction", JBool false);
             ("multilingual", JBool false)] |}.

Inductive action : Type :=
| SET_MESSAGES (payload : list Message)
| ADD_MESSAGE (payload : Message)
| SET_TYPING (payload : bool)
| SET_CONNECTED (payload : bool)
| SET_ERROR (payload : jsval)
| CLEAR_ERROR
| SET_CONVERSATION_ID (payload : jsval)
| SET_SUGGESTIONS (payload : jsval)
| SET_CONVERSATION_HISTORY (payload : jsval)
| SET_CAPABILITIES (payload : jsval)
| RESET_CONVERSATION.

Definition chatbotReducer (st : state) (a : action) : state :=
  match a with
  | SET_MESSAGES payload =>
      {| messages := payload;
         currentConversationId := currentConversationId st; isTyping := isTyping st;
         isConnected := isConnected st; error := error st; suggestions := suggestions st;
         conversationHistory := conversationHistory st; capabilities := capabilities st |}
  | ADD_MESSAGE payload =>
      {| messages := messages st ++ [payload];
         currentConversationId := currentConversationId st; isTyping := isTyping st;
         isConnected := isConnected st; error := error st; suggestions := suggestions st;
         conversationHistory := conversationHistory st; capabilities := capabilities st |}
  | SET_TYPING payload =>
      {| messages := messages st; currentConversationId := currentConversationId st;
         isTyping := payload;
         isConnected := isConnected st; error := error st; suggestions := suggestions st;
         conversationHistory := conversationHistory st; capabilities := capabilities st |}
  | SET_CONNECTED payload =>
      {| messages := messages st; currentConversationId := currentConversationId st;
         isTyping := isTyping st;
         isConnected := payload;
         error := error st; suggestions := suggestions st;
         conversationHistory := conversationHistory st; capabilities := capabilities st |}
  | SET_ERROR payload =>
      {| messages := messages st; currentConversationId := currentConversationId st;
         isTyping := false;
         isConnected := isConnected st;
         error := payload;
         suggestions := suggestions st;
         conversationHistory := conversationHistory st; capabilities := capabilities st |}
  | CLEAR_ERROR =>
      {| messages := messages st; currentConversationId := currentConversationId st;
         isTyping := isTyping st; isConnected := isConnected st;
         error := JNull;
         suggestions := suggestions st;
         conversationHistory := conversationHistory st; capabilities := capabilities st |}
  | SET_CONVERSATION_ID payload =>
      {| messages := messages st;
         currentConversationId := payload;
         isTyping := isTyping st; isConnected := isConnected st; error := error st;
         suggestions := suggestions st;
         conversationHistory := conversationHistory st; capabilities := capabilities st |}
  | SET_SUGGESTIONS payload =>
      {| messages := messages st; currentConversationId := currentConversationId st;
         isTyping := isTyping st; isConnected := isConnected st; error := error st;
         suggestions := payload;
         conversationHistory := conversationHistory st; capabilities := capabilities st |}
  | SET_CONVERSATION_HISTORY payload =>
      {| messages := messages st; currentConversationId := currentConversationId st;
         isTyping := isTyping st; isConnected := isConnected st; error := error st;
         suggestions := suggestions st;
         conversationHistory := payload;
         capabilities := capabilities st |}
  | SET_CAPABILITIES payload =>
      {| messages := messages st; currentConversationId := currentConversationId st;
         isTyping := isTyping st; isConnected := isConnected st; error := error st;
         suggestions := suggestions st; conversationHistory := conversationHistory st;
         capabilities := payload |}
  | RESET_CONVERSATION =>
      {| messages := messages initialState;
         currentConversationId := currentConversationId initialState;
         isTyping := isTyping initialState;
         isConnected := isConnected initialState;
         error := error initialState;
         suggestions := suggestions initialState;
         conversationHistory := conversationHistory initialState;
         capabilities := capabilities st |}
  end.

Local Abbreviation W := (world state request).

Definition dispatch (a : action) : Op W unit :=
  fun w =>
    (Fulfilled tt,
     {| store := chatbotReducer (store w) a; sent := sent w; clock := clock w |}).

Definition greeting : string :=
  "Hello! I'm your ComplEase assistant. I'm here to help you with your complaints and answer any questions you might have. How can I assist you today?".

Definition apology : string :=
  "I'm sorry, I'm having trouble processing your request right now. Please try again later or contact support if the issue persists.".

(** ** The transcript entries

    The values of the source's [userMessage], [greetingMessage],
    [botMessage] and [errorMessage] literals ([botMessage] and
    [errorMessage]: once the reads of [response] and [error] have gone
    through, that is when these are not null or undefined). *)

Definition userMessage (messageText : jsval) (now : Z) : Message :=
  {| id := now; text := messageText; sender := user; timestamp := now;
     intent := JUndefined; sentiment := JUndefined; entities := JUndefined;
     isError := false |}.

Definition errorMessage (error : jsval) (now : Z) : Message :=
  {| id := now + 1; text := js_or (opt_member error "response") (JStr apology);
     sender := bot; timestamp := now;
     intent := JUndefined; sentiment := JUndefined; entities := JUndefined;
     isError := true |}.

Definition botMessage (response : jsval) (now : Z) : Message :=
  {| id := now + 1;
     text := js_or (opt_member response "message") (opt_member response "response");
     sender := bot; timestamp := now;
     intent := opt_member response "intent";
     sentiment := opt_member response "sentiment";
     entities := opt_member response "entities";
     isError := false |}.

Definition greetingMessage (now : Z) : Message :=
  {| id := now; text := JStr greeting; sender := bot; timestamp := now;
     intent := JUndefined; sentiment := JUndefined; entities := JUndefined;
     isError := false |}.

(** [if (c) { dispatch(a) }] *)
Definition dispatch_if (c : jsval) (a : action) : Op W unit :=
  if truthy c then dispatch a else ret tt.

Definition initializeChatbot (r : reply jsval) : Op W unit :=
  try_catch
    (capabilities <- getCapabilities r ;;
     features <- get capabilities "features" ;;
     dispatch (SET_CAPABILITIES (js_or features (JObj []))) ;;;
     now <- Date_now ;;
     dispatch (ADD_MESSAGE (greetingMessage now)) ;;;
     dispatch (SET_CONNECTED true))%op
    (fun _ => dispatch (SET_CONNECTED false)).

(** The operations below close over the state of the render that created
    them: [rendered] is that state, and [rendered.currentConversationId]
    is what the source's [state.currentConversationId] reads, whatever
    has been dispatched to the store since. *)

Definition sendMessage (rendered : state) (messageText : jsval) (r : reply jsval)
  : Op W jsval :=
  try_catch
    (now <- Date_now ;;
     dispatch (ADD_MESSAGE (userMessage messageText now)) ;;;
     dispatch (SET_TYPING true) ;;;
     dispatch CLEAR_ERROR ;;;
     response <- chatbotService.sendMessage messageText (currentConversationId rendered) r ;;
     now <- Date_now ;;
     text <- (message <- get response "message" ;;
              if truthy message then ret message else get response "response") ;;
     intent <- get response "intent" ;;
     sentiment <- get response "sentiment" ;;
     entities <- get response "entities" ;;
     dispatch (ADD_MESSAGE
                 {| id := now + 1; text := text; sender := bot;
                    timestamp := now;
                    intent := intent; sentiment := sentiment; entities := entities;
                    isError := false |}) ;;;
     conversationId <- get response "conversationId" ;;
     dispatch_if conversationId (SET_CONVERSATION_ID conversationId) ;;;
     suggestions <- get response "suggestions" ;;
     dispatch_if suggestions (SET_SUGGESTIONS suggestions) ;;;
     dispatch (SET_TYPING false) ;;;
     ret response)%op
    (fun error =>
       now <- Date_now ;;
       response <- get error "response" ;;
       dispatch (ADD_MESSAGE
                   {| id := now + 1; text := js_or response (JStr apology); sender := bot;
                      timestamp := now;
                      intent := JUndefined; sentiment := JUndefined;
                      entities := JUndefined; isError := true |}) ;;;
       message <- get error "message" ;;
       dispatch (SET_ERROR (js_or message (JStr "Failed to send message"))) ;;;
       throw error)%op.

(** [r1] settles the start request, [r2] the message request (read only
    when an initial message was supplied). *)
Definition startNewConversation (rendered : state) (initialMessage : jsval)
           (r1 r2 : reply jsval) : Op W jsval :=
  let initialMessage := default_null initialMessage in
  try_catch
    (response <- chatbotService.startConversation initialMessage r1 ;;
     conversationId <- get response "conversationId" ;;
     dispatch (SET_CONVERSATION_ID conversationId) ;;;
     (if truthy initialMessage
      then (_ <- sendMessage rendered initialMessage r2 ;; ret tt)
      else ret tt) ;;;
     ret response)%op
    (fun error => throw error).

Definition endConversation (rendered : state) (r : reply jsval) : Op W unit :=
  try_catch
    ((if truthy (currentConversationId rendered)
      then (_ <- chatbotService.endConversation (currentConversationId rendered) r ;; ret tt)
      else ret tt) ;;;
     dispatch RESET_CONVERSATION)%op
    (fun _ => dispatch RESET_CONVERSATION).

Definition reportFeedback (rendered : state) (feedback : jsval) (r : reply jsval) : Op W unit :=
  try_catch
    (if truthy (currentConversationId rendered)
     then (_ <- reportInteraction (currentConversationId rendered) feedback r ;; ret tt)%op
     else ret tt)
    (fun _ => ret tt).

(** A provider that has just rendered from its store: the closures it
    hands out have captured exactly the store's state. *)
Definition render (w : W) : state := store w.

(** [if (c) { dispatch(a) }] on the store. *)
Definition reduce_if (c : jsval) (a : action) (st : state) : state :=
  if truthy c then chatbotReducer st a else st.


(** ** Sample data *)

Definition fresh_chat : world state request :=
  {| store := initialState; sent := []; clock := 0 |}.

(** ** The remaining callbacks of the provider *)

(** [dispatch] for a callback whose requests are [query]s. *)
Definition dispatch_on {R : Type} (a : action) : Op (world state R) unit :=
  fun w =>
    (Fulfilled tt,
     {| store := chatbotReducer (store w) a; sent := sent w; clock := clock w |}).

Definition getConversationHistory (conversationId : jsval) (r : reply jsval)
  : Op (world state query) jsval :=
  try_catch
    (history <- chatbotService.getConversationHistory conversationId r ;;
     dispatch_on (SET_CONVERSATION_HISTORY history) ;;;
     ret history)%op
    (fun error => throw error).

Definition classifyIntent (message : jsval) (r : reply jsval)
  : Op (world state query) jsval :=
  try_catch
    (intent <- chatbotService.classifyIntent message r ;;
     ret intent)%op
    (fun _ => ret JNull).

Definition analyzeSentiment (message : jsval) (r : reply jsval)
  : Op (world state query) jsval :=
  try_catch
    (sentiment <- chatbotService.analyzeSentiment message r ;;
     ret sentiment)%op
    (fun _ => ret JNull).

Definition getComplaintSuggestions (partialComplaint : jsval) (r : reply jsval)
  : Op (world state query) jsval :=
  try_catch
    (suggestions <- chatbotService.getComplaintSuggestions partialComplaint r ;;
     dispatch_on (SET_SUGGESTIONS suggestions) ;;;
     ret suggestions)%op
    (fun _ => ret (JArr [])).

Definition clearError : Op (world state request) unit :=
  dispatch CLEAR_ERROR.

(** [resetConversation] dispatches the reset and starts
    [initializeChatbot()] without awaiting it; [r] settles the
    capabilities request of that initialisation, and the operation below
    runs to the point where the initialisation has finished. *)
Definition resetConversation (r : reply jsval) : Op (world state request) unit :=
  (dispatch RESET_CONVERSATION ;;;
   initializeChatbot r)%op.

(** ** A session of the provider

    One entry per call a consumer makes, with the replies that settle its
    requests.  Each call is made on the callbacks of a render of the
    current store and is awaited before the next one; a call that rejects
    does not stop the session. *)

Inductive call : Type :=
| InitializeChatbot (r : reply jsval)
| SendMessage (messageText : jsval) (r : reply jsval)
| StartNewConversation (initialMessage : jsval) (r1 r2 : reply jsval)
| EndConversation (r : reply jsval)
| ReportFeedback (feedback : jsval) (r : reply jsval)
| ClearError
| ResetConversation (r : reply jsval).

(** Forget the value an operation resolves with. *)
Definition settles {A} (m : Op (world state request) A) : Op (world state request) unit :=
  fun w =>
    match m w with
    | (Fulfilled _, w') => (Fulfilled tt, w')
    | (Rejected e, w') => (Rejected e, w')
    end.

Definition perform (c : call) : Op (world state request) unit :=
  fun w =>
    let rendered := render w in
    match c with
    | InitializeChatbot r => initializeChatbot r w
    | SendMessage messageText r => settles (sendMessage rendered messageText r) w
    | StartNewConversation initialMessage r1 r2 =>
        settles (startNewConversation rendered initialMessage r1 r2) w
    | EndConversation r => endConversation rendered r w
    | ReportFeedback feedback r => reportFeedback rendered feedback r w
    | ClearError => clearError w
    | ResetConversation r => resetConversation r w
    end.

Definition session (calls : list call) (w : world state request) : world state request :=
  fold_left (fun w c => snd (perform c w)) calls w.

(** The calls that reset the conversation. *)
Definition resets (c : call) : bool :=
  match c with
  | EndConversation _ | ResetConversation _ => true
  | _ => false
  end.

End ChatbotContext.

(** ** The interceptors of the two axios clients

    Both clients attach the stored token to every request.  On a failed
    response [apiClient] signs the user out when the status is 401;
    [aiClient] only logs. *)

Module interceptors.

Record browser : Type := Browser {
  localStorage : gmap string string;
  location_href : string
}.

(** The request interceptor: [headers] are [config.headers]. *)
Definition request_use (b : browser) (headers : gmap string string) : gmap string string :=
  match localStorage b !! "authToken" with
  | Some token =>
      if String.eqb token "" then headers
      else <["Authorization" := "Bearer " ++ token]> headers
  | None => headers
  end.

(** The rejection handler of [apiClient.interceptors.response]; [status]
    is [error.response?.status] ([None] when there is no response).  The
    error itself is passed on unchanged. *)
Definition apiClient_response_rejected (status : option Z) (b : browser) : browser :=
  match status with
  | Some 401 =>
      {| localStorage := delete "user" (delete "authToken" (localStorage b));
         location_href := "/login" |}
  | _ => b
  end.

Definition aiClient_response_rejected (status : option Z) (b : browser) : browser := b.

End interceptors.

(** * Properties of the Domain Store *)

Module ComplaintFacts.
Import complaintService ComplaintContext.

Local Abbreviation W := (world state request).

(** ** What the operations dispatch when the request succeeds *)

Lemma deleteComplaint_ok (complaintId : ident) (data : jsval) (t : Z) (w : W) :
  deleteComplaint complaintId (Reply (Ok data) t) w =
  (Fulfilled tt,
   {| store :=
        complaintReducer
          (complaintReducer
             (complaintReducer (complaintReducer (store w) (SET_LOADING true)) CLEAR_ERROR)
             (DELETE_COMPLAINT complaintId))
          (SET_LOADING false);
      sent := sent w ++ [DELETE_complaint complaintId];
      clock := t |}).
Proof. reflexivity. Qed.

Lemma submitComplaint_ok (complaintData : Draft) (c : Complaint) (t : Z) (w : W) :
  submitComplaint complaintData (Reply (Ok c) t) w =
  (Fulfilled c,
   {| store :=
        complaintReducer
          (complaintReducer
             (complaintReducer (complaintReducer (store w) (SET_LOADING true)) CLEAR_ERROR)
             (ADD_COMPLAINT c))
          (SET_LOADING false);
      sent := sent w ++ [POST_complaints complaintData];
      clock := t |}).
Proof. reflexivity. Qed.

Lemma updateComplaint_ok (complaintId : ident) (updateData : gmap string jsval)
      (c : Complaint) (t : Z) (w : W) :
  updateComplaint complaintId updateData (Reply (Ok c) t) w =
  (Fulfilled c,
   {| store :=
        complaintReducer
          (complaintReducer
             (complaintReducer (complaintReducer (store w) (SET_LOADING true)) CLEAR_ERROR)
             (UPDATE_COMPLAINT c))
          (SET_LOADING false);
      sent := sent w ++ [PUT_complaint complaintId updateData];
      clock := t |}).
Proof. reflexivity. Qed.

(** ** Strings and truthiness *)

Lemma truthy_js_or (a b : jsval) : truthy b = true -> truthy (js_or a b) = true.
Proof. intros Hb. unfold js_or. destruct (truthy a) eqn:Ha; assumption. Qed.

Lemma truthy_not_null (v : jsval) : truthy v = true -> v <> JNull.
Proof. intros H ->. discriminate H. Qed.

(** ** The list and the current complaint under DELETE_COMPLAINT *)

Lemma filter_out_absent (x : ident) (l : list Complaint) :
  (forall c, In c l -> id c <> x) ->
  List.filter (fun complaint => negb (has_id x complaint)) l = l.
Proof.
  induction l as [|c l IH]; intros Habs; simpl; [reflexivity|].
  unfold has_id at 1. rewrite bool_decide_eq_false_2 by (apply Habs; now left).
  simpl. f_equal. apply IH. intros c' Hc'. apply Habs. now right.
Qed.

Lemma find_absent (x : ident) (l : list Complaint) :
  (forall c, In c l -> id c <> x) -> List.find (has_id x) l = None.
Proof.
  induction l as [|c l IH]; intros Habs; simpl; [reflexivity|].
  unfold has_id at 1. rewrite bool_decide_eq_false_2 by (apply Habs; now left).
  apply IH. intros c' Hc'. apply Habs. now right.
Qed.

Lemma delete_removes_every_match (st : state) (x : ident) (c : Complaint) :
  In c (complaints (complaintReducer st (DELETE_COMPLAINT x))) <->
  In c (complaints st) /\ id c <> x.
Proof.
  simpl. rewrite filter_In. unfold has_id.
  rewrite negb_true_iff, bool_decide_eq_false. reflexivity.
Qed.

Lemma delete_clears_current (st : state) (x : ident) (c : Complaint) :
  currentComplaint st = Some c -> id c = x ->
  currentComplaint (complaintReducer st (DELETE_COMPLAINT x)) = None.
Proof.
  intros Hcur Hid. cbn. rewrite Hcur. cbn. unfold has_id.
  now rewrite bool_decide_eq_true_2.
Qed.

(** The bucket of the removed complaint is clamped; [total] is written
    first and without a clamp. *)
Lemma delete_bucket_clamped (st : state) (x : ident) (c : Complaint) :
  List.find (has_id x) (complaints st) = Some c ->
  stats (complaintReducer st (DELETE_COMPLAINT x)) !! status c =
  Some (Math_max0 (num_add (stats st !! status c) (-1))).
Proof. intros Hfind. simpl. rewrite Hfind. simpl. apply lookup_insert_eq. Qed.

Lemma delete_total_unclamped (st : state) (x : ident) (c : Complaint) :
  List.find (has_id x) (complaints st) = Some c ->
  status c <> "total" ->
  stats (complaintReducer st (DELETE_COMPLAINT x)) !! "total" =
  Some (num_add (stats st !! "total") (-1)).
Proof.
  intros Hfind Hne. simpl. rewrite Hfind. simpl.
  rewrite lookup_insert_ne by assumption. apply lookup_insert_eq.
Qed.

(** When the id is absent the computed key is ["undefined"]: every other
    key except [total] keeps its value. *)
Lemma delete_absent_frame (st : state) (x : ident) (k : string) :
  (forall c, In c (complaints st) -> id c <> x) ->
  k <> "undefined" -> k <> "total" ->
  stats (complaintReducer st (DELETE_COMPLAINT x)) !! k = stats st !! k.
Proof.
  intros Habs Hu Ht. simpl. rewrite (find_absent x _ Habs). simpl.
  rewrite lookup_insert_ne by congruence.
  rewrite lookup_insert_ne by congruence. reflexivity.
Qed.

Lemma delete_absent_adds_key (st : state) (x : ident) :
  (forall c, In c (complaints st) -> id c <> x) ->
  stats st !! "undefined" = None ->
  stats (complaintReducer st (DELETE_COMPLAINT x)) !! "undefined" = Some NaN.
Proof.
  intros Habs Hnone. simpl. rewrite (find_absent x _ Habs). simpl.
  rewrite Hnone. apply lookup_insert_eq.
Qed.

(** ** C1 *)

(** C1 (fails on the code): [remove(id)] of a listed complaint takes it
    out of the list and clamps the status bucket at zero, but
    [Stats.total] is decremented with no clamp.  After one list fetch and
    one successful removal of the fetched complaint the list is empty,
    [pending] is still 0 and [total] is -1. *)
Theorem C1_remove_total_goes_negative :
  let w' := snd (deleteComplaint (IdNum 1) (Reply (Ok JUndefined) 20) listed) in
  complaints (store listed) = [leak] /\
  stats (store listed) !! "total" = Some (Fin 0) /\
  fst (deleteComplaint (IdNum 1) (Reply (Ok JUndefined) 20) listed) = Fulfilled tt /\
  complaints (store w') = [] /\
  stats (store w') !! "pending" = Some (Fin 0) /\
  stats (store w') !! "total" = Some (Fin (-1)).
Proof. vm_compute. repeat split; reflexivity. Qed.

(** ** C2 *)

(** C2 (fails on the code): [remove(id)] of an id that is not in the list
    leaves [pending], [resolved] and [rejected] alone but writes a new
    key, ["undefined"], holding NaN, into Stats (and decrements
    [total]). *)
Theorem C2_remove_absent_adds_key :
  let w' := snd (deleteComplaint (IdNum 7) (Reply (Ok JUndefined) 20) fresh_store) in
  (forall c, In c (complaints (store fresh_store)) -> id c <> IdNum 7) /\
  stats (store fresh_store) !! "undefined" = None /\
  fst (deleteComplaint (IdNum 7) (Reply (Ok JUndefined) 20) fresh_store) = Fulfilled tt /\
  stats (store w') !! "undefined" = Some NaN /\
  stats (store w') !! "pending" = stats (store fresh_store) !! "pending" /\
  stats (store w') !! "resolved" = stats (store fresh_store) !! "resolved" /\
  stats (store w') !! "rejected" = stats (store fresh_store) !! "rejected" /\
  stats (store w') !! "total" = Some (Fin (-1)).
Proof.
  split; [intros c []|].
  vm_compute. repeat split; reflexivity.
Qed.

(** ** C7 *)

(** Every transition keeps [total] and [pending] numbers, as long as the
    stats the server sends have them so. *)
Lemma counted_preserved (st : state) (a : action) :
  counted (stats st) ->
  (forall payload, a = SET_STATS payload -> counted payload) ->
  counted (stats (complaintReducer st a)).
Proof.
  intros [[n Hn] [k Hk]] Hsrv.
  destruct a; try (split; [exists n | exists k]; assumption).
  - cbn. rewrite Hn, Hk. cbn. split.
    + exists (n + 1). rewrite lookup_insert_ne by discriminate. apply lookup_insert_eq.
    + exists (k + 1). apply lookup_insert_eq.
  - cbn. set (bucket := property_key _). rewrite Hn. cbn. split.
    + destruct (decide (bucket = "total")) as [->|Hne].
      * rewrite Hn. cbn. eexists. apply lookup_insert_eq.
      * rewrite lookup_insert_ne by assumption. eexists. apply lookup_insert_eq.
    + destruct (decide (bucket = "pending")) as [->|Hne].
      * rewrite Hk. cbn. eexists. apply lookup_insert_eq.
      * rewrite lookup_insert_ne by assumption.
        rewrite lookup_insert_ne by discriminate. eauto.
  - apply Hsrv. reflexivity.
  - split; [exists 0 | exists 0]; reflexivity.
Qed.

Lemma add_complaint_counts (st : state) (c : Complaint) (n m : Z) :
  stats st !! "total" = Some (Fin n) ->
  stats st !! "pending" = Some (Fin m) ->
  stats (complaintReducer st (ADD_COMPLAINT c)) !! "total" = Some (Fin (n + 1)) /\
  stats (complaintReducer st (ADD_COMPLAINT c)) !! "pending" = Some (Fin (m + 1)).
Proof.
  intros Ht Hp. simpl. rewrite Ht, Hp. simpl. split.
  - rewrite lookup_insert_ne by discriminate. apply lookup_insert_eq.
  - apply lookup_insert_eq.
Qed.

Lemma submit_step (w : W) (complaintData : Draft) (c : Complaint) (t n m : Z) :
  stats (store w) !! "total" = Some (Fin n) ->
  stats (store w) !! "pending" = Some (Fin m) ->
  let w' := snd (submitComplaint complaintData (Reply (Ok c) t) w) in
  complaints (store w') = c :: complaints (store w) /\
  stats (store w') !! "total" = Some (Fin (n + 1)) /\
  stats (store w') !! "pending" = Some (Fin (m + 1)).
Proof.
  intros Ht Hp. rewrite submitComplaint_ok. cbn [snd store].
  split; [reflexivity|].
  exact (add_complaint_counts
           (complaintReducer (complaintReducer (store w) (SET_LOADING true)) CLEAR_ERROR)
           c n m Ht Hp).
Qed.

Lemma submitAll_cons (d : Draft) (c : Complaint) (t : Z)
      (calls : list (Draft * Complaint * Z)) (w : W) :
  submitAll (accepted <$> (d, c, t) :: calls) w =
  submitAll (accepted <$> calls) (snd (submitComplaint d (Reply (Ok c) t) w)).
Proof. reflexivity. Qed.

Lemma submitAll_counts (calls : list (Draft * Complaint * Z)) :
  forall (w : W) (n m : Z),
    stats (store w) !! "total" = Some (Fin n) ->
    stats (store w) !! "pending" = Some (Fin m) ->
    let w' := snd (submitAll (accepted <$> calls) w) in
    fst (submitAll (accepted <$> calls) w) = Fulfilled tt /\
    complaints (store w') = (rev (returned <$> calls) ++ complaints (store w))%list /\
    stats (store w') !! "total" = Some (Fin (n + Z.of_nat (length calls))) /\
    stats (store w') !! "pending" = Some (Fin (m + Z.of_nat (length calls))).
Proof.
  induction calls as [|[[d c] t] calls IH]; intros w n m Ht Hp.
  - cbn. rewrite !Z.add_0_r. auto.
  - destruct (submit_step w d c t n m Ht Hp) as (Hl & Ht' & Hp').
    destruct (IH _ _ _ Ht' Hp') as (Hres & Hl2 & Ht2 & Hp2).
    cbn zeta. rewrite submitAll_cons.
    split; [exact Hres|]. split; [|split].
    + rewrite Hl2, Hl. cbn [fmap list_fmap returned rev].
      rewrite <- app_assoc. reflexivity.
    + rewrite Ht2. do 2 f_equal. cbn [length]. lia.
    + rewrite Hp2. do 2 f_equal. cbn [length]. lia.
Qed.

(** C7: a successful [submit(draft)] resolves with the returned complaint,
    puts it at the front of the list and adds one to [Stats.total] and to
    [Stats.pending]; N successful submits in a row (no deletes) put the N
    complaints in front, latest first, and add N to both counts.  The
    counts are safe integers before and after, the range in which the
    additions of the code are exact. *)
Theorem C7_submit_prepends_and_counts (w : W) (n m : Z)
        (Htotal : stats (store w) !! "total" = Some (Fin n))
        (Hpending : stats (store w) !! "pending" = Some (Fin m))
        (Hn : safe_integer n) (Hm : safe_integer m) :
  (forall (complaintData : Draft) (c : Complaint) (t : Z),
      safe_integer (n + 1) -> safe_integer (m + 1) ->
      let run := submitComplaint complaintData (Reply (Ok c) t) w in
      fst run = Fulfilled c /\
      complaints (store (snd run)) = c :: complaints (store w) /\
      stats (store (snd run)) !! "total" = Some (Fin (n + 1)) /\
      stats (store (snd run)) !! "pending" = Some (Fin (m + 1))) /\
  (forall calls : list (Draft * Complaint * Z),
      safe_integer (n + Z.of_nat (length calls)) ->
      safe_integer (m + Z.of_nat (length calls)) ->
      let run := submitAll (accepted <$> calls) w in
      fst run = Fulfilled tt /\
      complaints (store (snd run)) = (rev (returned <$> calls) ++ complaints (store w))%list /\
      stats (store (snd run)) !! "total" = Some (Fin (n + Z.of_nat (length calls))) /\
      stats (store (snd run)) !! "pending" = Some (Fin (m + Z.of_nat (length calls)))).
Proof.
  split.
  - intros d c t _ _. cbn zeta. split; [reflexivity|].
    exact (submit_step w d c t n m Htotal Hpending).
  - intros calls _ _. exact (submitAll_counts calls w n m Htotal Hpending).
Qed.

Lemma C7_submit_witness :
  let d := {| fields := [("title", "Water leakage in building A")]; attachments := [] |} in
  let run := submitAll (accepted <$> [(d, leak, 5); (d, leak_resolved, 9)]) fresh_store in
  fst run = Fulfilled tt /\
  complaints (store (snd run)) = [leak_resolved; leak] /\
  stats (store (snd run)) !! "total" = Some (Fin 2) /\
  stats (store (snd run)) !! "pending" = Some (Fin 2).
Proof.
  intros d.
  assert (Hsafe0 : safe_integer 0) by (unfold safe_integer; lia).
  assert (Hsafe2 : safe_integer (0 + Z.of_nat (length [(d, leak, 5); (d, leak_resolved, 9)])))
    by (unfold safe_integer; cbn; lia).
  exact (proj2 (C7_submit_prepends_and_counts fresh_store 0 0 eq_refl eq_refl Hsafe0 Hsafe0)
               [(d, leak, 5); (d, leak_resolved, 9)] Hsafe2 Hsafe2).
Defined.

(** ** C8 *)

(** The [catch] branch shared by the operations leaves an error and no
    loading flag. *)
Lemma fail_with_sets_error {A} (fallback : string) (e : jsval) (w : W) :
  nullish e = false ->
  fallback <> "" ->
  let run := fail_with (A := A) fallback e w in
  fst run = Rejected e /\
  error (store (snd run)) = js_or (opt_member e "message") (JStr fallback) /\
  error (store (snd run)) <> JNull /\
  isLoading (store (snd run)) = false.
Proof.
  intros He Hfb.
  assert (Hm : member e "message" = inl (opt_member e "message"))
    by (destruct e; try discriminate He; reflexivity).
  unfold fail_with, bind, get, dispatch, throw. rewrite Hm. cbn.
  repeat split.
  apply truthy_not_null, truthy_js_or. cbn.
  destruct (String.eqb fallback "") eqn:E; [|reflexivity].
  apply String.eqb_eq in E. contradiction.
Qed.

(** C8: a transition of the Domain Store that sets Error to a non-null
    value (it is a SET_ERROR, or it changes the Error field) leaves
    Loading false in the state it produces. *)
Theorem C8_error_clears_loading (st : state) (a : action) :
  error (complaintReducer st a) <> JNull ->
  (error (complaintReducer st a) <> error st \/ exists payload, a = SET_ERROR payload) ->
  isLoading (complaintReducer st a) = false.
Proof.
  intros Hset Hkind.
  destruct a; cbn in *; try reflexivity; try congruence;
    destruct Hkind as [Hchg | [p Heq]]; congruence.
Qed.

Lemma C8_error_clears_loading_witness :
  let st := complaintReducer initialState (SET_LOADING true) in
  isLoading st = true /\
  isLoading (complaintReducer st (SET_ERROR (JStr "Failed to fetch complaints"))) = false.
Proof.
  intros st. split; [reflexivity|].
  apply (C8_error_clears_loading st (SET_ERROR (JStr "Failed to fetch complaints"))).
  - cbn. discriminate.
  - right. exists (JStr "Failed to fetch complaints"). reflexivity.
Defined.

(** ** C10 *)

Lemma map_replace_absent (payload : Complaint) (l : list Complaint) :
  (forall c, In c l -> id c <> id payload) ->
  List.map (fun complaint => if has_id (id payload) complaint then payload else complaint) l = l.
Proof.
  induction l as [|c l IH]; intros Habs; simpl; [reflexivity|].
  unfold has_id at 1. rewrite bool_decide_eq_false_2 by (apply Habs; now left).
  f_equal. apply IH. intros c' Hc'. apply Habs. now right.
Qed.

(** C10 as stated fails: with complaint 1 open as the current complaint
    and not in the (empty) list, a successful [update(1, patch)] replaces
    the current complaint by the server's answer. *)
Lemma C10_update_unlisted_counterexample :
  let run := updateComplaint (IdNum 1) ∅ (Reply (Ok leak_resolved) 20) viewing in
  (forall c, In c (complaints (store viewing)) -> id c <> IdNum 1) /\
  fst run = Fulfilled leak_resolved /\
  ~ (complaints (store (snd run)) = complaints (store viewing) /\
     currentComplaint (store (snd run)) = currentComplaint (store viewing)).
Proof.
  cbn zeta. split; [intros c []|]. split; [reflexivity|].
  intros [_ Hcur]. vm_compute in Hcur. discriminate Hcur.
Qed.

(** C10 (amended): when no list entry has the id of the updated complaint,
    a successful [update(id, patch)] leaves the list as it was, resolves
    with the server's complaint, and leaves Error null and Loading false;
    the current complaint is replaced by the server's complaint when it
    has that id, and is unchanged otherwise. *)
Theorem C10_update_unlisted (w : W) (complaintId : ident)
        (updateData : gmap string jsval) (updated : Complaint) (t : Z)
        (Hsame : id updated = complaintId)
        (Habsent : forall c, In c (complaints (store w)) -> id c <> complaintId) :
  let run := updateComplaint complaintId updateData (Reply (Ok updated) t) w in
  fst run = Fulfilled updated /\
  complaints (store (snd run)) = complaints (store w) /\
  currentComplaint (store (snd run)) =
    (if current_has_id (currentComplaint (store w)) complaintId
     then Some updated
     else currentComplaint (store w)) /\
  error (store (snd run)) = JNull /\
  isLoading (store (snd run)) = false.
Proof.
  subst complaintId. cbn zeta. rewrite updateComplaint_ok. cbn.
  rewrite (map_replace_absent updated _ Habsent). auto.
Qed.

Lemma C10_update_unlisted_witness :
  let run := updateComplaint (IdNum 1) ∅ (Reply (Ok leak_resolved) 20) viewing in
  fst run = Fulfilled leak_resolved /\
  complaints (store (snd run)) = [] /\
  currentComplaint (store (snd run)) = Some leak_resolved /\
  error (store (snd run)) = JNull /\
  isLoading (store (snd run)) = false.
Proof.
  apply (C10_update_unlisted viewing (IdNum 1) ∅ leak_resolved 20).
  - reflexivity.
  - intros c Hc. simpl in Hc. destruct Hc.
Defined.

End ComplaintFacts.

(** * Properties of the Conversation Store *)

Module ChatbotFacts.
Import chatbotService ChatbotContext.

Local Abbreviation W := (world state request).

(** ** Reading a field of a value that is not null or undefined *)

Lemma member_defined (v : jsval) (k : string) :
  nullish v = false -> member v k = inl (opt_member v k).
Proof. destruct v; intros H; try discriminate H; reflexivity. Qed.

Lemma truthy_defined (v : jsval) : truthy v = true -> nullish v = false.
Proof. destruct v; intros H; try discriminate H; reflexivity. Qed.

Lemma js_or_defined (a b : jsval) : nullish b = false -> nullish (js_or a b) = false.
Proof.
  intros Hb. unfold js_or. destruct (truthy a) eqn:Ha; [|assumption].
  now apply truthy_defined.
Qed.

(** ** The service: what [sendMessage] rejects with *)

Lemma service_sendMessage_rejected (message conversationId d : jsval) (t : Z) (w : W) :
  chatbotService.sendMessage message conversationId (Reply (Err d) t) w =
  (Rejected (js_or d sendMessage_failure),
   {| store := store w;
      sent := sent w ++ [POST_message message (default_null conversationId) (clock w)];
      clock := t |}).
Proof. reflexivity. Qed.

Lemma service_sendMessage_fulfilled (message conversationId data : jsval) (t : Z) (w : W) :
  chatbotService.sendMessage message conversationId (Reply (Ok data) t) w =
  (Fulfilled data,
   {| store := store w;
      sent := sent w ++ [POST_message message (default_null conversationId) (clock w)];
      clock := t |}).
Proof. reflexivity. Qed.

(** Whatever is thrown inside the [try] after the user message went out:
    the [catch] appends the error message, sets Error and rethrows. *)
Lemma sendMessage_rejected (rendered : state) (messageText d : jsval) (t : Z) (w : W) :
  let thrown := js_or d sendMessage_failure in
  sendMessage rendered messageText (Reply (Err d) t) w =
  (Rejected thrown,
   {| store :=
        chatbotReducer
          (chatbotReducer
             (chatbotReducer
                (chatbotReducer
                   (chatbotReducer (store w) (ADD_MESSAGE (userMessage messageText (clock w))))
                   (SET_TYPING true))
                CLEAR_ERROR)
             (ADD_MESSAGE (errorMessage thrown t)))
          (SET_ERROR (js_or (opt_member thrown "message") (JStr "Failed to send message")));
      sent := sent w ++ [POST_message messageText
                                      (default_null (currentConversationId rendered))
                                      (clock w)];
      clock := t |}).
Proof.
  intros thrown.
  assert (Hdef : nullish thrown = false) by (apply js_or_defined; reflexivity).
  unfold sendMessage, try_catch, bind, Date_now, dispatch.
  rewrite service_sendMessage_rejected. fold thrown.
  unfold get, throw. rewrite !member_defined by assumption.
  reflexivity.
Qed.

Lemma dispatch_if_run (c : jsval) (a : action) (w : W) :
  dispatch_if c a w =
  (Fulfilled tt, {| store := reduce_if c a (store w); sent := sent w; clock := clock w |}).
Proof.
  unfold dispatch_if, reduce_if, dispatch, ret. destruct (truthy c); [reflexivity|].
  destruct w; reflexivity.
Qed.

Lemma sendMessage_fulfilled (rendered : state) (messageText response : jsval) (t : Z) (w : W) :
  nullish response = false ->
  sendMessage rendered messageText (Reply (Ok response) t) w =
  (Fulfilled response,
   {| store :=
        chatbotReducer
          (reduce_if (opt_member response "suggestions")
             (SET_SUGGESTIONS (opt_member response "suggestions"))
             (reduce_if (opt_member response "conversationId")
                (SET_CONVERSATION_ID (opt_member response "conversationId"))
                (chatbotReducer
                   (chatbotReducer
                      (chatbotReducer
                         (chatbotReducer (store w)
                            (ADD_MESSAGE (userMessage messageText (clock w))))
                         (SET_TYPING true))
                      CLEAR_ERROR)
                   (ADD_MESSAGE (botMessage response t)))))
          (SET_TYPING false);
      sent := sent w ++ [POST_message messageText
                                      (default_null (currentConversationId rendered))
                                      (clock w)];
      clock := t |}).
Proof.
  intros Hdef.
  unfold sendMessage, try_catch, bind, Date_now, dispatch.
  rewrite service_sendMessage_fulfilled.
  unfold get, ret, dispatch_if, reduce_if, dispatch, botMessage, js_or.
  rewrite !member_defined by assumption.
  destruct (truthy (opt_member response "message")),
           (truthy (opt_member response "conversationId")),
           (truthy (opt_member response "suggestions")); reflexivity.
Qed.

(** A body that is [null] or [undefined]: reading [response.message]
    throws, and the [catch] treats the TypeError like any failure. *)
Lemma sendMessage_no_body (rendered : state) (messageText response : jsval) (t : Z) (w : W) :
  nullish response = true ->
  let thrown := TypeError response "message" in
  sendMessage rendered messageText (Reply (Ok response) t) w =
  (Rejected thrown,
   {| store :=
        chatbotReducer
          (chatbotReducer
             (chatbotReducer
                (chatbotReducer
                   (chatbotReducer (store w) (ADD_MESSAGE (userMessage messageText (clock w))))
                   (SET_TYPING true))
                CLEAR_ERROR)
             (ADD_MESSAGE (errorMessage thrown t)))
          (SET_ERROR (js_or (opt_member thrown "message") (JStr "Failed to send message")));
      sent := sent w ++ [POST_message messageText
                                      (default_null (currentConversationId rendered))
                                      (clock w)];
      clock := t |}).
Proof.
  intros Hnull. destruct response; try discriminate Hnull; reflexivity.
Qed.

Lemma reduce_if_messages (c : jsval) (a : action) (st : state) :
  (forall s, messages (chatbotReducer s a) = messages s) ->
  messages (reduce_if c a st) = messages st.
Proof. intros H. unfold reduce_if. destruct (truthy c); auto. Qed.

(** ** C3 *)

(** C3: however the remote call of [sendMessage(text)] settles, the
    transcript afterwards is the transcript before followed by exactly two
    entries, first the user message (sender [user], text [text], stamped
    with the time of the call, no classification, no error flag) and then
    a message whose sender is [bot] (the reply or the error message): its
    length grew by 2 and nothing before was removed or moved. *)
Theorem C3_sendMessage_appends_two (rendered : state) (messageText : jsval)
        (r : reply jsval) (w : W) :
  let w' := snd (sendMessage rendered messageText r w) in
  (exists b : Message,
      messages (store w') =
        (messages (store w) ++
         [ {| id := clock w; text := messageText; sender := user; timestamp := clock w;
              intent := JUndefined; sentiment := JUndefined; entities := JUndefined;
              isError := false |};
           b ])%list /\
      sender b = bot) /\
  length (messages (store w')) = (length (messages (store w)) + 2)%nat.
Proof.
  cbn zeta.
  assert (H : exists b : Message,
             messages (store (snd (sendMessage rendered messageText r w))) =
               (messages (store w) ++
                [ {| id := clock w; text := messageText; sender := user;
                     timestamp := clock w;
                     intent := JUndefined; sentiment := JUndefined; entities := JUndefined;
                     isError := false |};
                  b ])%list /\
             sender b = bot).
  { destruct r as [[response|d] t].
    - destruct (nullish response) eqn:Hn.
      + rewrite (sendMessage_no_body _ _ _ _ _ Hn). cbn.
        eexists. rewrite <- app_assoc. split; reflexivity.
      + rewrite (sendMessage_fulfilled _ _ _ _ _ Hn). cbn [snd store].
        exists (botMessage response t). split; [|reflexivity].
        cbn [chatbotReducer messages].
        rewrite !reduce_if_messages by reflexivity.
        cbn. rewrite <- app_assoc. reflexivity.
    - rewrite sendMessage_rejected. cbn.
      eexists. rewrite <- app_assoc. split; reflexivity. }
  split; [exact H|].
  destruct H as (b & -> & _). rewrite length_app. reflexivity.
Qed.

(** ** C4 *)

(** C4: when the remote call of [sendMessage(text)] fails, the transcript
    gains a user message carrying exactly [text] and then a bot message
    flagged as an error whose text is the fallback text ([response]) of
    the rejection value when it has one, and the fixed apology otherwise;
    Error is set (to the rejection's [message], or to a default, never
    null), Typing is cleared, and the call rejects with the rejection
    value of the service. *)
Theorem C4_sendMessage_failure (rendered : state) (messageText d : jsval) (t : Z) (w : W) :
  let thrown := js_or d sendMessage_failure in
  let run := sendMessage rendered messageText (Reply (Err d) t) w in
  fst run = Rejected thrown /\
  messages (store (snd run)) =
    (messages (store w) ++
     [ {| id := clock w; text := messageText; sender := user; timestamp := clock w;
          intent := JUndefined; sentiment := JUndefined; entities := JUndefined;
          isError := false |};
       {| id := t + 1;
          text := if truthy (opt_member thrown "response")
                  then opt_member thrown "response"
                  else JStr apology;
          sender := bot; timestamp := t;
          intent := JUndefined; sentiment := JUndefined; entities := JUndefined;
          isError := true |} ])%list /\
  error (store (snd run)) = js_or (opt_member thrown "message") (JStr "Failed to send message") /\
  error (store (snd run)) <> JNull /\
  isTyping (store (snd run)) = false.
Proof.
  cbn zeta. rewrite sendMessage_rejected. cbn [fst snd store].
  split; [reflexivity|]. split; [|split; [reflexivity|split; [|reflexivity]]].
  - cbn. rewrite <- app_assoc. reflexivity.
  - cbn [chatbotReducer error].
    unfold js_or at 1.
    destruct (truthy (opt_member (js_or d sendMessage_failure) "message")) eqn:E.
    + intros Heq. rewrite Heq in E. discriminate E.
    + discriminate.
Qed.

(** Two failures from the initial state.  With no answer at all the
    service supplies its own fallback text; with an error body that has no
    [response] the context's fixed apology is used. *)
Example sendMessage_without_answer :
  let run := sendMessage (render fresh_chat) (JStr "I want to file a complaint")
                         (Reply (Err JUndefined) 7) fresh_chat in
  text <$> messages (store (snd run)) =
    [JStr "I want to file a complaint";
     JStr "I apologize, but I'm having trouble processing your request right now. Please try again later or contact support."] /\
  error (store (snd run)) = JStr "Failed to send message to chatbot".
Proof. split; reflexivity. Qed.

Example sendMessage_error_body_without_fallback :
  let run := sendMessage (render fresh_chat) (JStr "I want to file a complaint")
                         (Reply (Err (JObj [("message", JStr "Service unavailable")])) 7)
                         fresh_chat in
  fst run = Rejected (JObj [("message", JStr "Service unavailable")]) /\
  text <$> messages (store (snd run)) =
    [JStr "I want to file a complaint"; JStr apology] /\
  error (store (snd run)) = JStr "Service unavailable".
Proof. repeat split; reflexivity. Qed.

(** ** C5 *)

Lemma initializeChatbot_greets (caps : jsval) (r : reply jsval) (w : W) :
  getCapabilities r w =
    (Fulfilled caps, {| store := store w; sent := sent w ++ [GET_capabilities];
                        clock := arrival r |}) ->
  nullish caps = false ->
  initializeChatbot r w =
  (Fulfilled tt,
   {| store :=
        chatbotReducer
          (chatbotReducer
             (chatbotReducer (store w)
                (SET_CAPABILITIES (js_or (opt_member caps "features") (JObj []))))
             (ADD_MESSAGE (greetingMessage (arrival r))))
          (SET_CONNECTED true);
      sent := sent w ++ [GET_capabilities];
      clock := arrival r |}).
Proof.
  intros Hcaps Hdef. unfold initializeChatbot, try_catch, bind. rewrite Hcaps.
  unfold get. rewrite member_defined by assumption. reflexivity.
Qed.

(** A fetched body that is [null] or [undefined] is the one way into the
    [catch] of [initializeChatbot]. *)
Lemma initializeChatbot_no_body (data : jsval) (t : Z) (w : W) :
  nullish data = true ->
  let run := initializeChatbot (Reply (Ok data) t) w in
  fst run = Fulfilled tt /\
  isConnected (store (snd run)) = false /\
  messages (store (snd run)) = messages (store w).
Proof. intros Hn. destruct data; try discriminate Hn; repeat split. Qed.

(** C5 as stated fails: from the initial state, with the capability
    request failing, [initialize()] ends connected and with the greeting
    in the transcript. *)
Lemma C5_initialize_failure_counterexample :
  let run := initializeChatbot (Reply (Err JUndefined) 5) fresh_chat in
  fst run = Fulfilled tt /\
  ~ (isConnected (store (snd run)) = false /\
     length (messages (store (snd run))) = 0%nat).
Proof.
  cbn zeta. split; [reflexivity|]. intros [Hc _]. vm_compute in Hc. discriminate Hc.
Qed.

(** C5 (amended): when the capability fetch fails, [initialize()] takes the
    service's default capability set (every optional feature false),
    appends the fixed greeting and sets Connected to true; a successful
    fetch whose body is not null or undefined does the same with the
    fetched features ([{}] when the body has none). *)
Theorem C5_initialize_greets (w : W) (t : Z) :
  (forall d : jsval,
      let run := initializeChatbot (Reply (Err d) t) w in
      fst run = Fulfilled tt /\
      capabilities (store (snd run)) = capabilities initialState /\
      messages (store (snd run)) = (messages (store w) ++ [greetingMessage t])%list /\
      length (messages (store (snd run))) = (length (messages (store w)) + 1)%nat /\
      isConnected (store (snd run)) = true) /\
  (forall data : jsval,
      nullish data = false ->
      let run := initializeChatbot (Reply (Ok data) t) w in
      fst run = Fulfilled tt /\
      capabilities (store (snd run)) = js_or (opt_member data "features") (JObj []) /\
      messages (store (snd run)) = (messages (store w) ++ [greetingMessage t])%list /\
      length (messages (store (snd run))) = (length (messages (store w)) + 1)%nat /\
      isConnected (store (snd run)) = true).
Proof.
  split.
  - intros d. cbn zeta.
    rewrite (initializeChatbot_greets defaultCapabilities (Reply (Err d) t) w)
      by reflexivity.
    cbn. rewrite length_app. repeat split.
  - intros data Hdef. cbn zeta.
    rewrite (initializeChatbot_greets data (Reply (Ok data) t) w) by (reflexivity || assumption).
    cbn. rewrite length_app. repeat split.
Qed.

Lemma C5_initialize_greets_witness :
  let data := JObj [("features", JObj [("sentimentAnalysis", JBool true)])] in
  let run := initializeChatbot (Reply (Ok data) 5) fresh_chat in
  fst run = Fulfilled tt /\
  capabilities (store (snd run)) = JObj [("sentimentAnalysis", JBool true)] /\
  messages (store (snd run)) = [greetingMessage 5] /\
  length (messages (store (snd run))) = 1%nat /\
  isConnected (store (snd run)) = true.
Proof.
  intros data.
  exact (proj2 (C5_initialize_greets fresh_chat 5) data eq_refl).
Defined.

(** ** C6 *)

Lemma sendMessage_sent (rendered : state) (messageText : jsval) (r : reply jsval) (w : W) :
  sent (snd (sendMessage rendered messageText r w)) =
  (sent w ++ [POST_message messageText (default_null (currentConversationId rendered))
                           (clock w)])%list.
Proof.
  destruct r as [[response|d] t].
  - destruct (nullish response) eqn:Hn.
    + now rewrite (sendMessage_no_body _ _ _ _ _ Hn).
    + now rewrite (sendMessage_fulfilled _ _ _ _ _ Hn).
  - now rewrite sendMessage_rejected.
Qed.

(** The message request of [startNewConversation] carries the
    conversation id of the render that created the callbacks, whatever id
    the start request returned. *)
Lemma startNewConversation_sent (rendered : state) (initialMessage response : jsval)
      (t : Z) (r2 : reply jsval) (w : W) :
  truthy initialMessage = true ->
  nullish response = false ->
  sent (snd (startNewConversation rendered initialMessage (Reply (Ok response) t) r2 w)) =
  (sent w ++ [POST_conversation initialMessage;
              POST_message initialMessage
                           (default_null (currentConversationId rendered)) t])%list.
Proof.
  intros Hmsg Hdef.
  assert (Hdn : default_null initialMessage = initialMessage)
    by (destruct initialMessage; try discriminate Hmsg; reflexivity).
  unfold startNewConversation. rewrite Hdn.
  unfold try_catch at 1. unfold bind at 1.
  unfold startConversation, try_catch at 1, await_axios. rewrite Hdn. cbn [settle arrival].
  unfold bind at 1, get. rewrite member_defined by assumption.
  unfold bind at 1, dispatch at 1. rewrite Hmsg.
  unfold bind at 1, bind at 1.
  pose proof (sendMessage_sent rendered initialMessage r2
    {| store := chatbotReducer (store w) (SET_CONVERSATION_ID (opt_member response "conversationId"));
       sent := sent w ++ [POST_conversation initialMessage]; clock := t |}) as Hs.
  cbn [store sent clock] in *.
  destruct (sendMessage rendered initialMessage r2 _) as [[v|e] w2] eqn:Hrun;
    cbn [snd] in *; unfold ret, throw; cbn [snd]; rewrite Hs, <- app_assoc; reflexivity.
Qed.

(** C6 (fails on the code): [startConversation(initialMessage)] stores
    the new conversation id, but the [sendMessage] it then performs is
    the callback of the current render and forwards the message with the
    id that render held.  From the initial state ([null] id), with the
    server returning id conv-42, the message request carries [null]. *)
Theorem C6_startConversation_forwards_stale_id :
  let text := JStr "I want to file a complaint" in
  let started := JObj [("conversationId", JStr "conv-42")] in
  let answered := JObj [("message", JStr "What happened?")] in
  let run := startNewConversation (render fresh_chat) text
                                  (Reply (Ok started) 5) (Reply (Ok answered) 9) fresh_chat in
  currentConversationId (render fresh_chat) = JNull /\
  fst run = Fulfilled started /\
  sent (snd run) = [POST_conversation text; POST_message text JNull 5] /\
  currentConversationId (store (snd run)) = JStr "conv-42".
Proof. vm_compute. repeat split; reflexivity. Qed.

(** ** C9 *)

(** C9: RESET_CONVERSATION puts the transcript, the typing flag and the
    suggestions back to their initial values and keeps the capabilities
    of the state it resets; [endConversation()] resolves and leaves the
    store exactly so reset, whether there was a conversation to end or
    not and however the end request settled. *)
Theorem C9_reset_keeps_capabilities (st rendered : state) (r : reply jsval) (w : W) :
  (messages (chatbotReducer st RESET_CONVERSATION) = messages initialState /\
   isTyping (chatbotReducer st RESET_CONVERSATION) = isTyping initialState /\
   suggestions (chatbotReducer st RESET_CONVERSATION) = suggestions initialState /\
   capabilities (chatbotReducer st RESET_CONVERSATION) = capabilities st) /\
  (let run := endConversation rendered r w in
   fst run = Fulfilled tt /\
   store (snd run) = chatbotReducer (store w) RESET_CONVERSATION /\
   messages (store (snd run)) = [] /\
   isTyping (store (snd run)) = false /\
   suggestions (store (snd run)) = JArr [] /\
   capabilities (store (snd run)) = capabilities (store w)).
Proof.
  split; [repeat split|].
  cbn zeta. unfold endConversation.
  destruct (truthy (currentConversationId rendered)); destruct r as [[data|d] t];
    repeat split.
Qed.

End ChatbotFacts.

(** * The Domain Store: operations, sessions and what they keep *)

Module ComplaintSession.
Import complaintService ComplaintContext.

Local Abbreviation W := (world state request).

(** ** The [catch] of the operations *)

Lemma fail_with_run {A} (fallback : string) (e : jsval) (w : W) :
  nullish e = false ->
  fail_with (A := A) fallback e w =
  (Rejected e,
   {| store := complaintReducer (store w)
                 (SET_ERROR (js_or (opt_member e "message") (JStr fallback)));
      sent := sent w; clock := clock w |}).
Proof.
  intros He. unfold fail_with, bind, get, dispatch, throw.
  rewrite (ChatbotFacts.member_defined e "message" He). reflexivity.
Qed.

Lemma thrown_defined (d : jsval) (message : string) :
  nullish (js_or d (failure message)) = false.
Proof. apply ChatbotFacts.js_or_defined. reflexivity. Qed.

Lemma try_fail_with {A} (body : Op W A) (fallback : string) (e : jsval) (w w1 : W) :
  body w = (Rejected e, w1) ->
  nullish e = false ->
  try_catch body (fail_with fallback) w =
  (Rejected e,
   {| store := complaintReducer (store w1)
                 (SET_ERROR (js_or (opt_member e "message") (JStr fallback)));
      sent := sent w1; clock := clock w1 |}).
Proof.
  intros Hbody He. unfold try_catch. rewrite Hbody. now apply fail_with_run.
Qed.

Lemma perform_rejected (c : call) (d : jsval) (w : W) :
  loads c = true ->
  rejection c = Some d ->
  let thrown := js_or d (failure (service_fallback c)) in
  exists (rq : request) (t : Z),
    perform c w =
    (Rejected thrown,
     {| store :=
          complaintReducer
            (complaintReducer (complaintReducer (store w) (SET_LOADING true)) CLEAR_ERROR)
            (SET_ERROR (js_or (opt_member thrown "message") (JStr (context_fallback c))));
        sent := sent w ++ [rq]; clock := t |}).
Proof.
  intros Hl Hr thrown.
  destruct c as [f r|i r|cd r|i u r|i r|r|s f r|f| |]; try discriminate Hl;
    destruct r as [[data|d'] t]; try discriminate Hr;
    injection Hr as ->; eexists; exists t;
    cbv [perform settles fetchComplaints fetchComplaintById submitComplaint
         updateComplaint deleteComplaint searchComplaints];
    erewrite try_fail_with by (reflexivity || apply thrown_defined);
    reflexivity.
Qed.

Lemma loads_fallback_nonempty (c : call) : loads c = true -> context_fallback c <> "".
Proof. destruct c; intros H; try discriminate H; discriminate. Qed.

(** X1: when the request of a loading operation (fetch list, fetch one, submit,
    update, delete, search) fails, the operation rejects with the error
    body of the response, or with the service's default object when that
    body is falsy; the list, the current complaint, the stats, the
    filters and the pagination are what they were; Loading is false and
    Error is the [message] of what was thrown (the provider's own
    fallback text when it has none), never null.  With a falsy body Error
    is the service's default message. *)
Theorem failed_call_keeps_data (c : call) (d : jsval) (w : W)
        (Hloads : loads c = true) (Hfailed : rejection c = Some d) :
  let thrown := js_or d (failure (service_fallback c)) in
  let run := perform c w in
  fst run = Rejected thrown /\
  complaints (store (snd run)) = complaints (store w) /\
  currentComplaint (store (snd run)) = currentComplaint (store w) /\
  stats (store (snd run)) = stats (store w) /\
  filters (store (snd run)) = filters (store w) /\
  pagination (store (snd run)) = pagination (store w) /\
  isLoading (store (snd run)) = false /\
  error (store (snd run)) =
    js_or (opt_member thrown "message") (JStr (context_fallback c)) /\
  error (store (snd run)) <> JNull /\
  (truthy d = false -> error (store (snd run)) = JStr (service_fallback c)).
Proof.
  cbn zeta.
  destruct (perform_rejected c d w Hloads Hfailed) as (rq & t & ->).
  cbn [fst snd store]. repeat split.
  - cbn. apply ComplaintFacts.truthy_not_null, ComplaintFacts.truthy_js_or. cbn.
    destruct (String.eqb (context_fallback c) "") eqn:E; [|reflexivity].
    apply String.eqb_eq in E. now apply loads_fallback_nonempty in E.
  - intros Hd. cbn. unfold js_or at 2. rewrite Hd. cbn.
    destruct c; try discriminate Hloads; reflexivity.
Qed.

Lemma failed_call_keeps_data_witness :
  let run := perform (FetchComplaintById (IdNum 9) (Reply (Err JUndefined) 30)) listed in
  fst run = Rejected (failure "Failed to fetch complaint details") /\
  complaints (store (snd run)) = [leak] /\
  isLoading (store (snd run)) = false /\
  error (store (snd run)) = JStr "Failed to fetch complaint details".
Proof.
  pose proof (failed_call_keeps_data
                (FetchComplaintById (IdNum 9) (Reply (Err JUndefined) 30)) JUndefined listed
                eq_refl eq_refl) as H.
  cbn zeta in H. destruct H as (H1 & H2 & _ & _ & _ & _ & H7 & _ & _ & H10).
  split; [exact H1|]. split; [exact H2|]. split; [exact H7|]. exact (H10 eq_refl).
Defined.

Lemma perform_fulfilled (c : call) (w : W) :
  loads c = true ->
  rejection c = None ->
  fst (perform c w) = Fulfilled tt /\
  isLoading (store (snd (perform c w))) = false /\
  error (store (snd (perform c w))) = JNull /\
  exists rq : request, sent (snd (perform c w)) = (sent w ++ [rq])%list.
Proof.
  intros Hl Hr.
  destruct c as [f r|i r|cd r|i u r|i r|r|s f r|f| |]; try discriminate Hl;
    destruct r as [[data|d'] t]; try discriminate Hr.
  - destruct data as [pc [pp|]]; repeat split; eexists; reflexivity.
  - repeat split; eexists; reflexivity.
  - repeat split; eexists; reflexivity.
  - repeat split; eexists; reflexivity.
  - repeat split; eexists; reflexivity.
  - repeat split; eexists; reflexivity.
Qed.

(** X2: after a loading operation has settled, Loading is false, and the
    operation has resolved exactly when its request went through, which
    is exactly when Error is null. *)
Theorem loading_call_settles (c : call) (w : W) (Hloads : loads c = true) :
  let run := perform c w in
  isLoading (store (snd run)) = false /\
  (fst run = Fulfilled tt <-> rejection c = None) /\
  (fst run = Fulfilled tt <-> error (store (snd run)) = JNull).
Proof.
  cbn zeta. destruct (rejection c) as [d|] eqn:Hr.
  - destruct (perform_rejected c d w Hloads Hr) as (rq & t & ->).
    cbn [fst snd store]. split; [reflexivity|].
    split; split; intros H; try discriminate H.
    exfalso. revert H. cbn.
    apply ComplaintFacts.truthy_not_null, ComplaintFacts.truthy_js_or. cbn.
    destruct (String.eqb (context_fallback c) "") eqn:E; [|reflexivity].
    apply String.eqb_eq in E. now apply loads_fallback_nonempty in E.
  - destruct (perform_fulfilled c w Hloads Hr) as (H1 & H2 & H3 & _).
    split; [exact H2|]. rewrite H1, H3. split; split; reflexivity.
Qed.

Lemma loading_call_settles_witness :
  let run := perform (DeleteComplaint (IdNum 1) (Reply (Ok JUndefined) 20)) listed in
  isLoading (store (snd run)) = false /\
  (fst run = Fulfilled tt <-> None = (None : option jsval)) /\
  (fst run = Fulfilled tt <-> error (store (snd run)) = JNull).
Proof.
  exact (loading_call_settles (DeleteComplaint (IdNum 1) (Reply (Ok JUndefined) 20))
                              listed eq_refl).
Defined.

(** ** Sessions *)

Lemma perform_quiet (c : call) (w : W) :
  loads c = false ->
  fst (perform c w) = Fulfilled tt /\
  isLoading (store (snd (perform c w))) =
    match c with ResetState => false | _ => isLoading (store w) end /\
  error (store (snd (perform c w))) =
    match c with ClearError | ResetState => JNull | _ => error (store w) end.
Proof.
  intros Hl.
  destruct c as [f r|i r|cd r|i u r|i r|r|s f r|f| |]; try discriminate Hl.
  - destruct r as [[data|d'] t]; repeat split.
  - repeat split.
  - repeat split.
  - repeat split.
Qed.

Lemma perform_loading_false (c : call) (w : W) :
  isLoading (store w) = false -> isLoading (store (snd (perform c w))) = false.
Proof.
  intros Hw. destruct (loads c) eqn:Hl.
  - destruct (rejection c) as [d|] eqn:Hr.
    + destruct (perform_rejected c d w Hl Hr) as (rq & t & ->). reflexivity.
    + now destruct (perform_fulfilled c w Hl Hr) as (_ & H & _).
  - destruct (perform_quiet c w Hl) as (_ & H & _). rewrite H.
    destruct c; try assumption; reflexivity.
Qed.

Lemma session_cons (c : call) (calls : list call) (w : W) :
  session (c :: calls) w = session calls (snd (perform c w)).
Proof. reflexivity. Qed.

Lemma session_app (calls1 calls2 : list call) (w : W) :
  session (calls1 ++ calls2) w = session calls2 (session calls1 w).
Proof. unfold session. apply fold_left_app. Qed.

(** X3: over any session of awaited calls (of any kind, failing or not) that
    starts with Loading false, Loading is false again at the end. *)
Theorem session_not_loading (calls : list call) (w : W) :
  isLoading (store w) = false -> isLoading (store (session calls w)) = false.
Proof.
  revert w. induction calls as [|c calls IH]; intros w Hw; [exact Hw|].
  rewrite session_cons. apply IH. now apply perform_loading_false.
Qed.

Lemma session_not_loading_witness :
  isLoading (store (session [SubmitComplaint {| fields := []; attachments := [] |}
                                           (Reply (Err JNull) 4);
                             FetchStats (Reply (Err JUndefined) 6);
                             DeleteComplaint (IdNum 1) (Reply (Ok JUndefined) 9)]
                            listed)) = false.
Proof. apply session_not_loading. reflexivity. Defined.

Lemma perform_sent (c : call) (w : W) :
  exists l : list request,
    sent (snd (perform c w)) = (sent w ++ l)%list /\
    length l = (if remote c then 1 else 0)%nat.
Proof.
  destruct (loads c) eqn:Hl.
  - assert (Hrem : remote c = true) by (destruct c; try discriminate Hl; reflexivity).
    rewrite Hrem. destruct (rejection c) as [d|] eqn:Hr.
    + destruct (perform_rejected c d w Hl Hr) as (rq & t & ->).
      exists [rq]. split; reflexivity.
    + destruct (perform_fulfilled c w Hl Hr) as (_ & _ & _ & rq & ->).
      exists [rq]. split; reflexivity.
  - destruct c as [f r|i r|cd r|i u r|i r|r|s f r|f| |]; try discriminate Hl.
    + exists [GET_stats]. destruct r as [[data|d'] t]; split; reflexivity.
    + exists []. cbn. rewrite app_nil_r. split; reflexivity.
    + exists []. cbn. rewrite app_nil_r. split; reflexivity.
    + exists []. cbn. rewrite app_nil_r. split; reflexivity.
Qed.

(** X4: a session only ever appends to the log of requests, and appends one
    request for each call other than setFilters, clearError and
    resetState (which send none), whether the call succeeds or fails. *)
Theorem session_requests (calls : list call) (w : W) :
  exists l : list request,
    sent (session calls w) = (sent w ++ l)%list /\
    length l = length (List.filter remote calls).
Proof.
  revert w. induction calls as [|c calls IH]; intros w.
  - exists []. cbn. rewrite app_nil_r. split; reflexivity.
  - rewrite session_cons.
    destruct (perform_sent c w) as (l1 & Hs1 & Hl1).
    destruct (IH (snd (perform c w))) as (l2 & Hs2 & Hl2).
    exists (l1 ++ l2)%list. split.
    + rewrite Hs2, Hs1, app_assoc. reflexivity.
    + rewrite length_app, Hl1, Hl2. cbn [List.filter].
      destruct (remote c); reflexivity.
Qed.

(** ** The counts stay numbers *)

Lemma reduceAll_counted (actions : list action) (st : state) :
  counted (stats st) -> Forall well_counted actions ->
  counted (stats (reduceAll st actions)).
Proof.
  revert st. induction actions as [|a actions IH]; intros st Hst Hall; [exact Hst|].
  inversion Hall as [|? ? Ha Hrest]; subst.
  cbn. apply IH; [|exact Hrest].
  apply ComplaintFacts.counted_preserved; [exact Hst|].
  intros payload ->. exact Ha.
Qed.

Lemma perform_actions (c : call) (w : W) :
  exists actions : list action,
    store (snd (perform c w)) = reduceAll (store w) actions /\
    (counted_reply c -> Forall well_counted actions).
Proof.
  destruct (loads c) eqn:Hl.
  - destruct (rejection c) as [d|] eqn:Hr.
    + destruct (perform_rejected c d w Hl Hr) as (rq & t & ->).
      eexists [_; _; _]. split; [reflexivity|].
      intros _. repeat constructor.
    + destruct c as [f r|i r|cd r|i u r|i r|r|s f r|f| |]; try discriminate Hl;
        destruct r as [[data|d'] t]; try discriminate Hr.
      * destruct data as [pc [pp|]].
        -- eexists [_; _; _; _]. split; [reflexivity|]. intros _. repeat constructor.
        -- eexists [_; _; _]. split; [reflexivity|]. intros _. repeat constructor.
      * eexists [_; _; _]. split; [reflexivity|]. intros _. repeat constructor.
      * eexists [_; _; _; _]. split; [reflexivity|]. intros _. repeat constructor.
      * eexists [_; _; _; _]. split; [reflexivity|]. intros _. repeat constructor.
      * eexists [_; _; _; _]. split; [reflexivity|]. intros _. repeat constructor.
      * eexists [_; _; _]. split; [reflexivity|]. intros _. repeat constructor.
  - destruct c as [f r|i r|cd r|i u r|i r|r|s f r|f| |]; try discriminate Hl.
    + destruct r as [[data|d'] t].
      * exists [SET_STATS data]. split; [reflexivity|].
        intros Hc. constructor; [exact Hc|constructor].
      * exists []. split; [reflexivity|]. constructor.
    + eexists [_]. split; [reflexivity|]. intros _. repeat constructor.
    + eexists [_]. split; [reflexivity|]. intros _. repeat constructor.
    + eexists [_]. split; [reflexivity|]. intros _. repeat constructor.
Qed.

(** X5: if [total] and [pending] are numbers and every stats reply of the
    session that carries a body has them as numbers, they are numbers
    after the session, whatever was deleted, updated or reset in it. *)
Theorem session_counted (calls : list call) (w : W) :
  counted (stats (store w)) ->
  Forall counted_reply calls ->
  counted (stats (store (session calls w))).
Proof.
  revert w. induction calls as [|c calls IH]; intros w Hw Hall; [exact Hw|].
  inversion Hall as [|? ? Hc Hrest]; subst.
  rewrite session_cons. apply IH; [|exact Hrest].
  destruct (perform_actions c w) as (actions & -> & Hact).
  apply reduceAll_counted; auto.
Qed.

Lemma session_counted_witness :
  counted (stats (store (session
    [DeleteComplaint (IdNum 7) (Reply (Ok JUndefined) 3);
     FetchStats (Reply (Ok (<["total" := Fin 4]> (<["pending" := Fin 1]> ∅))) 5);
     SubmitComplaint {| fields := []; attachments := [] |} (Reply (Ok leak) 8)]
    fresh_store))).
Proof.
  apply session_counted.
  - split; [exists 0 | exists 0]; reflexivity.
  - repeat constructor; [exists 4 | exists 1]; reflexivity.
Defined.

(** ** The list requests *)

(** X6: a successful list fetch resolves with the response and replaces the
    list by the response's complaints (the empty list when the response
    has none); the response's pagination, when present, is merged over
    the old one; the current complaint, the stats and the filters are
    kept, Error is null and Loading false. *)
Theorem fetchComplaints_replaces (filters0 : gmap string jsval) (page : ComplaintPage)
        (t : Z) (w : W) :
  let run := fetchComplaints filters0 (Reply (Ok page) t) w in
  fst run = Fulfilled page /\
  complaints (store (snd run)) = default [] (page_complaints page) /\
  pagination (store (snd run)) =
    match page_pagination page with
    | Some p => p ∪ pagination (store w)
    | None => pagination (store w)
    end /\
  currentComplaint (store (snd run)) = currentComplaint (store w) /\
  stats (store (snd run)) = stats (store w) /\
  filters (store (snd run)) = filters (store w) /\
  error (store (snd run)) = JNull /\
  isLoading (store (snd run)) = false.
Proof. destruct page as [pc [pp|]]; repeat split. Qed.

(** X7: a successful search replaces the list the same way and sends one
    search request, but never touches the pagination, whatever the
    response carries. *)
Theorem searchComplaints_replaces (searchTerm : string) (filters0 : gmap string jsval)
        (page : ComplaintPage) (t : Z) (w : W) :
  let run := searchComplaints searchTerm filters0 (Reply (Ok page) t) w in
  fst run = Fulfilled page /\
  complaints (store (snd run)) = default [] (page_complaints page) /\
  pagination (store (snd run)) = pagination (store w) /\
  currentComplaint (store (snd run)) = currentComplaint (store w) /\
  stats (store (snd run)) = stats (store w) /\
  sent (snd run) = (sent w ++ [GET_search searchTerm filters0])%list /\
  error (store (snd run)) = JNull /\
  isLoading (store (snd run)) = false.
Proof. repeat split. Qed.

(** ** fetchStats *)

(** X8: [fetchStats] always resolves: with the stats, which replace the
    stored ones wholesale, or with nothing when the request fails, the
    stored stats then being kept.  In both cases the list, the current
    complaint, Loading and Error are left alone and one request is
    sent. *)
Theorem fetchStats_swallows (r : reply (gmap string jsnum)) (w : W) :
  let run := fetchStats r w in
  fst run = Fulfilled (match settle r with Ok payload => Some payload | Err _ => None end) /\
  stats (store (snd run)) =
    (match settle r with Ok payload => payload | Err _ => stats (store w) end) /\
  complaints (store (snd run)) = complaints (store w) /\
  currentComplaint (store (snd run)) = currentComplaint (store w) /\
  isLoading (store (snd run)) = isLoading (store w) /\
  error (store (snd run)) = error (store w) /\
  sent (snd run) = (sent w ++ [GET_stats])%list.
Proof. destruct r as [[payload|d] t]; repeat split. Qed.

(** ** UPDATE_COMPLAINT and DELETE_COMPLAINT *)

Lemma update_map_idem (payload : Complaint) (l : list Complaint) :
  let f := fun complaint => if has_id (id payload) complaint then payload else complaint in
  List.map f (List.map f l) = List.map f l.
Proof.
  cbn zeta. rewrite List.map_map. apply List.map_ext. intros c.
  destruct (has_id (id payload) c) eqn:E; [|now rewrite E].
  unfold has_id. now rewrite bool_decide_eq_true_2.
Qed.

(** X9: applying the same UPDATE_COMPLAINT twice is the same as applying it
    once; the list keeps its length, and each entry afterwards is either
    the payload or an old entry with another id. *)
Theorem update_idempotent (st : state) (payload : Complaint) :
  let st' := complaintReducer st (UPDATE_COMPLAINT payload) in
  complaintReducer st' (UPDATE_COMPLAINT payload) = st' /\
  length (complaints st') = length (complaints st) /\
  (forall c, In c (complaints st') -> c = payload \/ (In c (complaints st) /\ id c <> id payload)).
Proof.
  cbn zeta. split; [|split].
  - cbn. rewrite update_map_idem. f_equal.
    destruct (currentComplaint st) as [cur|]; [|reflexivity]. cbn.
    destruct (has_id (id payload) cur) eqn:E; cbn; [|now rewrite E].
    unfold has_id. now rewrite bool_decide_eq_true_2.
  - cbn. apply List.length_map.
  - intros c Hc. cbn in Hc. apply in_map_iff in Hc as (c0 & Hc0 & Hin).
    destruct (has_id (id payload) c0) eqn:E; [left; congruence|].
    right. subst c0. split; [exact Hin|].
    unfold has_id in E. now apply bool_decide_eq_false in E.
Qed.

Lemma update_idempotent_witness :
  let st := store listed in
  let st' := complaintReducer st (UPDATE_COMPLAINT leak_resolved) in
  complaintReducer st' (UPDATE_COMPLAINT leak_resolved) = st' /\
  length (complaints st') = 1%nat /\
  (In leak_resolved (complaints st') ->
   leak_resolved = leak_resolved \/
   (In leak_resolved (complaints st) /\ id leak_resolved <> id leak_resolved)).
Proof.
  intros st st'.
  destruct (update_idempotent st leak_resolved) as (H1 & H2 & H3).
  split; [exact H1|]. split; [exact H2|]. exact (H3 leak_resolved).
Defined.

Lemma find_after_delete (x : ident) (l : list Complaint) :
  List.find (has_id x) (List.filter (fun complaint => negb (has_id x complaint)) l) = None.
Proof.
  induction l as [|c l IH]; [reflexivity|]. cbn.
  destruct (has_id x c) eqn:E; cbn; [exact IH|]. now rewrite E.
Qed.

Lemma filter_after_delete (x : ident) (l : list Complaint) :
  let keep := fun complaint => negb (has_id x complaint) in
  List.filter keep (List.filter keep l) = List.filter keep l.
Proof.
  cbn zeta. induction l as [|c l IH]; [reflexivity|]. cbn.
  destruct (has_id x c) eqn:E; cbn; [exact IH|]. rewrite E. cbn. now f_equal.
Qed.

(** X10: a second DELETE_COMPLAINT of the same id leaves the list and the
    current complaint as the first one left them, yet decrements [total]
    once more and writes the key ["undefined"]. *)
Theorem delete_twice (st : state) (x : ident) :
  let st1 := complaintReducer st (DELETE_COMPLAINT x) in
  let st2 := complaintReducer st1 (DELETE_COMPLAINT x) in
  complaints st2 = complaints st1 /\
  currentComplaint st2 = currentComplaint st1 /\
  stats st2 !! "total" = Some (num_add (stats st1 !! "total") (-1)) /\
  stats st2 !! "undefined" =
    Some (Math_max0 (num_add (stats st1 !! "undefined") (-1))).
Proof.
  cbn zeta. split; [|split; [|split]].
  - cbn. apply filter_after_delete.
  - cbn. destruct (currentComplaint st) as [cur|]; [|reflexivity]. cbn.
    destruct (has_id x cur) eqn:E; cbn; [reflexivity|now rewrite E].
  - cbn [complaintReducer stats complaints]. rewrite find_after_delete. cbn [fmap option_fmap option_map property_key].
    rewrite lookup_insert_ne by discriminate. apply lookup_insert_eq.
  - cbn [complaintReducer stats complaints]. rewrite find_after_delete.
    cbn [fmap option_fmap option_map property_key].
    apply lookup_insert_eq.
Qed.

(** X11: DELETE_COMPLAINT writes two stats keys: the bucket, whose new value
    is never a negative number, and [total] (one less, when the bucket is
    another key); every other key keeps its value. *)
Theorem delete_writes_two_keys (st : state) (x : ident) :
  let bucket := property_key (status <$> List.find (has_id x) (complaints st)) in
  let st' := complaintReducer st (DELETE_COMPLAINT x) in
  (exists v : jsnum,
      stats st' !! bucket = Some v /\
      match v with Fin n => 0 <= n | NaN => True end) /\
  (bucket <> "total" -> stats st' !! "total" = Some (num_add (stats st !! "total") (-1))) /\
  (forall k, k <> bucket -> k <> "total" -> stats st' !! k = stats st !! k).
Proof.
  cbn zeta. cbn [complaintReducer stats].
  set (bucket := property_key _). split; [|split].
  - eexists. split; [apply lookup_insert_eq|].
    destruct (num_add _ _) as [n|]; cbn; [lia|exact I].
  - intros Hne. rewrite lookup_insert_ne by exact Hne. apply lookup_insert_eq.
  - intros k Hb Ht. rewrite lookup_insert_ne by congruence.
    rewrite lookup_insert_ne by congruence. reflexivity.
Qed.

Lemma delete_writes_two_keys_witness :
  let st := store listed in
  stats (complaintReducer st (DELETE_COMPLAINT (IdNum 1))) !! "resolved" =
  stats st !! "resolved".
Proof.
  intros st.
  apply (proj2 (proj2 (delete_writes_two_keys st (IdNum 1))) "resolved");
    discriminate.
Defined.

(** ** Submitting a complaint and removing it again *)

(** X12: submitting a complaint and then removing it brings back the list, the
    current complaint and the whole stats map, provided the returned
    complaint is pending with an id that is neither in the list nor the
    current complaint's, and [total] and [pending] are safe integers that
    stay safe when one is added, with [pending] not negative. *)
Theorem submit_then_remove (w : W) (complaintData : Draft) (c : Complaint)
        (data : jsval) (t1 t2 n m : Z)
        (Hnew : forall c', In c' (complaints (store w)) -> id c' <> id c)
        (Hcur : current_has_id (currentComplaint (store w)) (id c) = false)
        (Hstatus : status c = "pending")
        (Htotal : stats (store w) !! "total" = Some (Fin n))
        (Hpending : stats (store w) !! "pending" = Some (Fin m))
        (Hm : 0 <= m)
        (Hsafe_total : safe_integer n /\ safe_integer (n + 1))
        (Hsafe_pending : safe_integer m /\ safe_integer (m + 1)) :
  let w' := session [SubmitComplaint complaintData (Reply (Ok c) t1);
                     DeleteComplaint (id c) (Reply (Ok data) t2)] w in
  complaints (store w') = complaints (store w) /\
  currentComplaint (store w') = currentComplaint (store w) /\
  stats (store w') = stats (store w) /\
  error (store w') = JNull /\
  isLoading (store w') = false.
Proof.
  cbn zeta.
  assert (Hstore :
    store (session [SubmitComplaint complaintData (Reply (Ok c) t1);
                    DeleteComplaint (id c) (Reply (Ok data) t2)] w) =
    complaintReducer
      (complaintReducer
         (complaintReducer
            (complaintReducer
               (complaintReducer
                  (complaintReducer
                     (complaintReducer (complaintReducer (store w) (SET_LOADING true))
                                       CLEAR_ERROR)
                     (ADD_COMPLAINT c))
                  (SET_LOADING false))
               (SET_LOADING true))
            CLEAR_ERROR)
         (DELETE_COMPLAINT (id c)))
      (SET_LOADING false)) by reflexivity.
  rewrite Hstore. clear Hstore.
  cbn [complaintReducer complaints currentComplaint stats error isLoading List.find List.filter].
  assert (Hself : has_id (id c) c = true) by (unfold has_id; now rewrite bool_decide_eq_true_2).
  rewrite Hself. cbn [negb fmap option_fmap option_map property_key].
  rewrite Hcur, Hstatus, Htotal, Hpending.
  rewrite lookup_insert_eq.
  rewrite (lookup_insert_ne _ "pending" "total") by discriminate.
  rewrite lookup_insert_eq. cbn [num_add Math_max0].
  repeat split.
  - now apply ComplaintFacts.filter_out_absent.
  - apply map_eq. intros k.
    destruct (decide (k = "pending")) as [->|Hkp].
    + rewrite lookup_insert_eq, Hpending. do 2 f_equal. lia.
    + rewrite lookup_insert_ne by congruence.
      destruct (decide (k = "total")) as [->|Hkt].
      * rewrite lookup_insert_eq, Htotal. do 2 f_equal. lia.
      * rewrite !lookup_insert_ne by congruence. reflexivity.
Qed.

Lemma submit_then_remove_witness :
  let w' := session [SubmitComplaint {| fields := []; attachments := [] |} (Reply (Ok leak) 4);
                     DeleteComplaint (IdNum 1) (Reply (Ok JUndefined) 9)] fresh_store in
  complaints (store w') = [] /\
  currentComplaint (store w') = None /\
  stats (store w') = stats initialState /\
  error (store w') = JNull /\
  isLoading (store w') = false.
Proof.
  apply (submit_then_remove fresh_store {| fields := []; attachments := [] |} leak
                            JUndefined 4 9 0 0).
  - intros c' [].
  - reflexivity.
  - reflexivity.
  - reflexivity.
  - reflexivity.
  - lia.
  - unfold safe_integer. lia.
  - unfold safe_integer. lia.
Defined.

(** ** setFilters *)

(** X13: [setFilters] sends no request and never fails; each key of the payload
    takes the payload's value and every other filter keeps its own; the
    list, Loading and Error are untouched, and setting the same payload
    again changes nothing. *)
Theorem setFilters_merges (payload : gmap string jsval) (w : W) :
  let run := setFilters payload w in
  fst run = Fulfilled tt /\
  sent (snd run) = sent w /\
  (forall k, filters (store (snd run)) !! k =
             match payload !! k with
             | Some v => Some v
             | None => filters (store w) !! k
             end) /\
  complaints (store (snd run)) = complaints (store w) /\
  isLoading (store (snd run)) = isLoading (store w) /\
  error (store (snd run)) = error (store w) /\
  snd (setFilters payload (snd run)) = snd run.
Proof.
  cbn zeta. repeat split.
  - intros k. cbn. rewrite lookup_union. destruct (payload !! k), (filters (store w) !! k); reflexivity.
  - cbn. do 2 f_equal. rewrite (assoc_L (∪)). f_equal. apply (idemp_L (∪)).
Qed.

End ComplaintSession.

(** * The Conversation Store: operations, sessions and what they keep *)

Module ChatbotSession.
Import chatbotService ChatbotContext ChatbotFacts.

Local Abbreviation W := (world state request).

(** ** sendMessage *)

(** X14: when the chatbot answers with a body, [sendMessage] resolves with it;
    the last transcript entry is the bot message built from it ([message],
    else [response]); the conversation id and the suggestions are replaced
    only by truthy values of the answer; Error is null, Typing false, and
    Connected and the capabilities are unchanged. *)
Theorem sendMessage_reply_applied (rendered : state) (messageText response : jsval)
        (t : Z) (w : W) (Hbody : nullish response = false) :
  let run := sendMessage rendered messageText (Reply (Ok response) t) w in
  let conversationId := opt_member response "conversationId" in
  let suggestions0 := opt_member response "suggestions" in
  fst run = Fulfilled response /\
  last (messages (store (snd run))) = Some (botMessage response t) /\
  currentConversationId (store (snd run)) =
    (if truthy conversationId then conversationId else currentConversationId (store w)) /\
  suggestions (store (snd run)) =
    (if truthy suggestions0 then suggestions0 else suggestions (store w)) /\
  error (store (snd run)) = JNull /\
  isTyping (store (snd run)) = false /\
  isConnected (store (snd run)) = isConnected (store w) /\
  capabilities (store (snd run)) = capabilities (store w).
Proof.
  cbn zeta. rewrite (sendMessage_fulfilled _ _ _ _ _ Hbody). cbn [fst snd store].
  unfold reduce_if.
  destruct (truthy (opt_member response "conversationId")),
           (truthy (opt_member response "suggestions"));
    cbn; rewrite last_snoc; repeat split.
Qed.

Lemma sendMessage_reply_applied_witness :
  let response := JObj [("response", JStr "Noted."); ("conversationId", JStr "conv-42")] in
  let run := sendMessage (render fresh_chat) (JStr "The street light is broken")
                         (Reply (Ok response) 8) fresh_chat in
  fst run = Fulfilled response /\
  text <$> last (messages (store (snd run))) = Some (JStr "Noted.") /\
  currentConversationId (store (snd run)) = JStr "conv-42" /\
  suggestions (store (snd run)) = JArr [].
Proof.
  intros response run.
  pose proof (sendMessage_reply_applied (render fresh_chat) (JStr "The street light is broken")
                                        response 8 fresh_chat eq_refl) as H.
  cbn zeta in H. destruct H as (H1 & H2 & H3 & H4 & _).
  split; [exact H1|]. split; [unfold run; rewrite H2; reflexivity|].
  split; [exact H3|exact H4].
Defined.

Lemma reduce_if_frame {A} (f : state -> A) (c : jsval) (a : action) (st : state) :
  (forall s, f (chatbotReducer s a) = f s) -> f (reduce_if c a st) = f st.
Proof. intros H. unfold reduce_if. destruct (truthy c); auto. Qed.

Lemma sendMessage_outcome (rendered : state) (messageText : jsval) (r : reply jsval) (w : W) :
  let run := sendMessage rendered messageText r w in
  (exists response,
      settle r = Ok response /\ nullish response = false /\
      fst run = Fulfilled response /\
      error (store (snd run)) = JNull /\ isTyping (store (snd run)) = false) \/
  (exists e,
      (forall response, settle r = Ok response -> nullish response = true) /\
      fst run = Rejected e /\
      error (store (snd run)) <> JNull /\ isTyping (store (snd run)) = false).
Proof.
  cbn zeta. destruct r as [[response|d] t].
  - destruct (nullish response) eqn:Hn.
    + right. rewrite (sendMessage_no_body _ _ _ _ _ Hn). eexists.
      split; [intros ? [= <-]; exact Hn|]. split; [reflexivity|].
      split; [|reflexivity]. destruct response; discriminate.
    + left. rewrite (sendMessage_fulfilled _ _ _ _ _ Hn). exists response.
      split; [reflexivity|]. split; [exact Hn|]. split; [reflexivity|].
      cbn [snd store chatbotReducer error isTyping].
      rewrite !(reduce_if_frame error) by reflexivity. split; reflexivity.
  - right. rewrite sendMessage_rejected. eexists.
    split; [intros ? [=]|]. split; [reflexivity|]. split; [|reflexivity].
    cbn [snd store chatbotReducer error].
    apply ComplaintFacts.truthy_not_null, ComplaintFacts.truthy_js_or. reflexivity.
Qed.

(** X15: however the request settles, [sendMessage] leaves Typing false, has
    sent exactly one message request carrying the rendered conversation
    id, and has resolved exactly when Error is null, which is exactly
    when the request succeeded with a body that is not null or
    undefined. *)
Theorem sendMessage_settles (rendered : state) (messageText : jsval) (r : reply jsval) (w : W) :
  let run := sendMessage rendered messageText r w in
  isTyping (store (snd run)) = false /\
  ((exists response, fst run = Fulfilled response) <-> error (store (snd run)) = JNull) /\
  ((exists response, fst run = Fulfilled response) <->
   exists response, settle r = Ok response /\ nullish response = false) /\
  sent (snd run) =
    (sent w ++ [POST_message messageText (default_null (currentConversationId rendered))
                             (clock w)])%list.
Proof.
  cbn zeta. split; [|split; [|split]]; [| | |apply sendMessage_sent].
  all: destruct (sendMessage_outcome rendered messageText r w)
    as [(response & Hr & Hn & Hf & He & Ht)|(e & Hr & Hf & He & Ht)]; cbn zeta in *.
  - exact Ht.
  - exact Ht.
  - rewrite Hf, He. split; eauto.
  - rewrite Hf. split; [intros [? H]; discriminate H|]. intros H. contradiction.
  - rewrite Hf. split; eauto.
  - rewrite Hf. split; [intros [? H]; discriminate H|].
    intros (x & Hx & Hnx). rewrite (Hr x Hx) in Hnx. discriminate Hnx.
Qed.

Lemma sendMessage_settles_witness :
  let run := sendMessage (render fresh_chat) (JStr "hello") (Reply (Ok (JObj [])) 8)
                         fresh_chat in
  error (store (snd run)) = JNull.
Proof.
  intros run.
  destruct (sendMessage_settles (render fresh_chat) (JStr "hello") (Reply (Ok (JObj [])) 8)
                                fresh_chat) as (_ & [H _] & _).
  apply H. eexists. reflexivity.
Defined.

(** X16: a successful answer whose body is null or undefined makes
    [sendMessage] reject with the TypeError of reading [message]: the
    transcript ends with the fixed apology flagged as an error, Error is
    that TypeError's message, and the conversation id and suggestions are
    kept. *)
Theorem sendMessage_null_body (rendered : state) (messageText response : jsval)
        (t : Z) (w : W) (Hbody : nullish response = true) :
  let run := sendMessage rendered messageText (Reply (Ok response) t) w in
  fst run = Rejected (TypeError response "message") /\
  text <$> last (messages (store (snd run))) = Some (JStr apology) /\
  isError <$> last (messages (store (snd run))) = Some true /\
  (exists reason, error (store (snd run)) = JStr reason /\ reason <> "Failed to send message") /\
  currentConversationId (store (snd run)) = currentConversationId (store w) /\
  suggestions (store (snd run)) = suggestions (store w).
Proof.
  cbn zeta. rewrite (sendMessage_no_body _ _ _ _ _ Hbody). cbn [fst snd store].
  cbn. rewrite last_snoc.
  destruct response; try discriminate Hbody; repeat split; eexists; split;
    try reflexivity; discriminate.
Qed.

Lemma sendMessage_null_body_witness :
  let run := sendMessage (render fresh_chat) (JStr "hello") (Reply (Ok JNull) 8) fresh_chat in
  fst run = Rejected (TypeError JNull "message") /\
  text <$> last (messages (store (snd run))) = Some (JStr apology).
Proof.
  intros run.
  pose proof (sendMessage_null_body (render fresh_chat) (JStr "hello") JNull 8 fresh_chat
                                    eq_refl) as H.
  cbn zeta in H. destruct H as (H1 & H2 & _). split; [exact H1|exact H2].
Defined.

(** ** initializeChatbot *)

(** X17: [initializeChatbot] always resolves, sends one capabilities request,
    and leaves Error and the conversation id alone; either it ends
    connected with the greeting appended, or (only when the fetched body
    is null or undefined) disconnected with the transcript and the
    capabilities untouched. *)
Theorem initializeChatbot_never_rejects (r : reply jsval) (w : W) :
  let run := initializeChatbot r w in
  fst run = Fulfilled tt /\
  sent (snd run) = (sent w ++ [GET_capabilities])%list /\
  error (store (snd run)) = error (store w) /\
  currentConversationId (store (snd run)) = currentConversationId (store w) /\
  ((isConnected (store (snd run)) = true /\
    messages (store (snd run)) = (messages (store w) ++ [greetingMessage (arrival r)])%list) \/
   (isConnected (store (snd run)) = false /\
    messages (store (snd run)) = messages (store w) /\
    capabilities (store (snd run)) = capabilities (store w) /\
    exists data, settle r = Ok data /\ nullish data = true)).
Proof.
  cbn zeta. destruct r as [[data|d] t].
  - destruct (nullish data) eqn:Hn.
    + destruct data; try discriminate Hn; repeat split; right; repeat split; eauto.
    + rewrite (initializeChatbot_greets data (Reply (Ok data) t) w) by (reflexivity || assumption).
      repeat split. left. split; reflexivity.
  - rewrite (initializeChatbot_greets defaultCapabilities (Reply (Err d) t) w) by reflexivity.
    repeat split. left. split; reflexivity.
Qed.

(** ** startNewConversation *)

Lemma truthy_default_null (v : jsval) : truthy (default_null v) = truthy v.
Proof. destruct v; reflexivity. Qed.

Lemma default_null_idem (v : jsval) : default_null (default_null v) = default_null v.
Proof. destruct v; reflexivity. Qed.

(** X18: when the start request fails, [startNewConversation] rejects with the
    error body or the service's default object, dispatches nothing (the
    store, Error included, is unchanged) and sends no message request. *)
Theorem startNewConversation_start_fails (rendered : state) (initialMessage d : jsval)
        (t : Z) (r2 : reply jsval) (w : W) :
  let run := startNewConversation rendered initialMessage (Reply (Err d) t) r2 w in
  fst run = Rejected (js_or d (failure "Failed to start conversation")) /\
  store (snd run) = store w /\
  sent (snd run) = (sent w ++ [POST_conversation (default_null initialMessage)])%list.
Proof.
  cbn zeta. unfold startNewConversation, startConversation. rewrite default_null_idem.
  repeat split.
Qed.

(** X19: without an initial message (undefined, null, empty) a successful start
    sends the start request only, resolves with its response and stores
    the response's [conversationId] as it is, even [undefined]; the
    transcript and Error are unchanged. *)
Theorem startNewConversation_without_message (rendered : state)
        (initialMessage response : jsval) (t : Z) (r2 : reply jsval) (w : W)
        (Hnone : truthy initialMessage = false)
        (Hbody : nullish response = false) :
  let run := startNewConversation rendered initialMessage (Reply (Ok response) t) r2 w in
  fst run = Fulfilled response /\
  currentConversationId (store (snd run)) = opt_member response "conversationId" /\
  messages (store (snd run)) = messages (store w) /\
  error (store (snd run)) = error (store w) /\
  sent (snd run) = (sent w ++ [POST_conversation (default_null initialMessage)])%list.
Proof.
  cbn zeta. unfold startNewConversation, startConversation. rewrite default_null_idem.
  rewrite truthy_default_null, Hnone.
  unfold try_catch, bind, await_axios, get. cbn [settle arrival].
  rewrite (member_defined _ _ Hbody). repeat split.
Qed.

Lemma startNewConversation_without_message_witness :
  let run := startNewConversation (render fresh_chat) JUndefined
                                  (Reply (Ok (JObj [("status", JStr "ok")])) 5)
                                  (Reply (Err JNull) 6) fresh_chat in
  fst run = Fulfilled (JObj [("status", JStr "ok")]) /\
  currentConversationId (store (snd run)) = JUndefined /\
  messages (store (snd run)) = [] /\
  error (store (snd run)) = JNull /\
  sent (snd run) = [POST_conversation JNull].
Proof.
  exact (startNewConversation_without_message (render fresh_chat) JUndefined
           (JObj [("status", JStr "ok")]) 5 (Reply (Err JNull) 6) fresh_chat eq_refl eq_refl).
Defined.

Lemma startNewConversation_with_message_run (rendered : state)
        (initialMessage response : jsval) (t : Z) (r2 : reply jsval) (w : W)
        (Hmsg : truthy initialMessage = true)
        (Hbody : nullish response = false) :
  let started : W :=
    {| store := chatbotReducer (store w)
                  (SET_CONVERSATION_ID (opt_member response "conversationId"));
       sent := sent w ++ [POST_conversation initialMessage];
       clock := t |} in
  let inner := sendMessage rendered initialMessage r2 started in
  let run := startNewConversation rendered initialMessage (Reply (Ok response) t) r2 w in
  snd run = snd inner /\
  fst run = match fst inner with
            | Fulfilled _ => Fulfilled response
            | Rejected e => Rejected e
            end.
Proof.
  cbn zeta.
  assert (Hdn : default_null initialMessage = initialMessage)
    by (destruct initialMessage; try discriminate Hmsg; reflexivity).
  unfold startNewConversation, startConversation. rewrite !Hdn, Hmsg.
  unfold try_catch, bind, await_axios, get, dispatch, ret, throw.
  cbn [settle arrival]. rewrite (member_defined _ _ Hbody). cbn [store sent clock].
  destruct (sendMessage rendered initialMessage r2 _) as [[v|e] w2]; split; reflexivity.
Qed.

(** X20: with an initial message, [startNewConversation] ends in the world where
    the [sendMessage] it performs (on the store holding the new id) ends;
    it rejects with what that [sendMessage] rejects with, and otherwise
    resolves with the response of the start request, not the chatbot's
    answer. *)
Theorem startNewConversation_with_message (rendered : state)
        (initialMessage response : jsval) (t : Z) (r2 : reply jsval) (w : W)
        (Hmsg : truthy initialMessage = true)
        (Hbody : nullish response = false) :
  let started : W :=
    {| store := chatbotReducer (store w)
                  (SET_CONVERSATION_ID (opt_member response "conversationId"));
       sent := sent w ++ [POST_conversation initialMessage];
       clock := t |} in
  let inner := sendMessage rendered initialMessage r2 started in
  let run := startNewConversation rendered initialMessage (Reply (Ok response) t) r2 w in
  snd run = snd inner /\
  fst run = match fst inner with
            | Fulfilled _ => Fulfilled response
            | Rejected e => Rejected e
            end.
Proof. exact (startNewConversation_with_message_run rendered initialMessage response t r2 w Hmsg Hbody). Qed.

Lemma startNewConversation_with_message_witness :
  let response := JObj [("conversationId", JStr "conv-42")] in
  let run := startNewConversation (render fresh_chat) (JStr "hello")
                                  (Reply (Ok response) 5) (Reply (Err JUndefined) 9)
                                  fresh_chat in
  fst run = Rejected sendMessage_failure /\
  currentConversationId (store (snd run)) = JStr "conv-42" /\
  length (messages (store (snd run))) = 2%nat.
Proof.
  intros response run.
  destruct (startNewConversation_with_message (render fresh_chat) (JStr "hello") response 5
              (Reply (Err JUndefined) 9) fresh_chat eq_refl eq_refl) as [Hw Hr].
  cbn zeta in Hw, Hr. unfold run. rewrite Hw, Hr. repeat split.
Defined.

(** ** endConversation and reportFeedback *)

(** X21: [endConversation] never rejects; it sends one end request when the
    rendered conversation id is truthy and none otherwise, and leaves the
    conversation id and Error null and Connected true. *)
Theorem endConversation_notifies_once (rendered : state) (r : reply jsval) (w : W) :
  let run := endConversation rendered r w in
  let conversationId := currentConversationId rendered in
  fst run = Fulfilled tt /\
  sent (snd run) =
    (sent w ++ if truthy conversationId then [POST_conversation_end conversationId] else [])%list /\
  currentConversationId (store (snd run)) = JNull /\
  error (store (snd run)) = JNull /\
  isConnected (store (snd run)) = true.
Proof.
  cbn zeta. unfold endConversation.
  destruct (truthy (currentConversationId rendered)); destruct r as [[data|d] t];
    cbn; rewrite ?app_nil_r; repeat split.
Qed.

(** X22: [reportFeedback] never rejects and never changes the store; it sends
    the feedback only when the rendered conversation id is truthy. *)
Theorem reportFeedback_is_silent (rendered : state) (feedback : jsval)
        (r : reply jsval) (w : W) :
  let run := reportFeedback rendered feedback r w in
  let conversationId := currentConversationId rendered in
  fst run = Fulfilled tt /\
  store (snd run) = store w /\
  sent (snd run) =
    (sent w ++ if truthy conversationId then [POST_feedback conversationId feedback] else [])%list.
Proof.
  cbn zeta. unfold reportFeedback.
  destruct (truthy (currentConversationId rendered)); destruct r as [[data|d] t];
    cbn; rewrite ?app_nil_r; repeat split.
Qed.

(** ** The callbacks that only query *)

(** X23: [classifyIntent] and [analyzeSentiment] never reject: they resolve
    with the answer, or with null when the request fails; they send one
    request and leave the store unchanged. *)
Theorem classify_and_sentiment_never_reject (message : jsval) (r : reply jsval)
        (w : world state query) :
  let answer := match settle r with Ok data => data | Err _ => JNull end in
  (fst (classifyIntent message r w) = Fulfilled answer /\
   store (snd (classifyIntent message r w)) = store w /\
   sent (snd (classifyIntent message r w)) = (sent w ++ [POST_intent message])%list) /\
  (fst (analyzeSentiment message r w) = Fulfilled answer /\
   store (snd (analyzeSentiment message r w)) = store w /\
   sent (snd (analyzeSentiment message r w)) = (sent w ++ [POST_sentiment message])%list).
Proof. destruct r as [[data|d] t]; repeat split. Qed.

(** X24: [getComplaintSuggestions] never rejects: on success the answer, whatever
    it is, becomes the suggestions and is returned; on failure it returns
    an empty array and the stored suggestions are kept.  The transcript and
    Error are untouched. *)
Theorem getComplaintSuggestions_falls_back (partialComplaint : jsval) (r : reply jsval)
        (w : world state query) :
  let run := getComplaintSuggestions partialComplaint r w in
  fst run = Fulfilled (match settle r with Ok data => data | Err _ => JArr [] end) /\
  suggestions (store (snd run)) =
    (match settle r with Ok data => data | Err _ => suggestions (store w) end) /\
  messages (store (snd run)) = messages (store w) /\
  error (store (snd run)) = error (store w) /\
  sent (snd run) = (sent w ++ [POST_complaint_suggestions partialComplaint])%list.
Proof. destruct r as [[data|d] t]; repeat split. Qed.

(** X25: [getConversationHistory] stores and returns the fetched history; a
    failure is rethrown (the body, or the service's default object) with
    the store unchanged. *)
Theorem getConversationHistory_rethrows (conversationId : jsval) (r : reply jsval)
        (w : world state query) :
  let run := getConversationHistory conversationId r w in
  match settle r with
  | Ok data =>
      fst run = Fulfilled data /\
      conversationHistory (store (snd run)) = data /\
      messages (store (snd run)) = messages (store w)
  | Err d =>
      fst run = Rejected (js_or d (failure "Failed to fetch conversation history")) /\
      store (snd run) = store w
  end.
Proof. destruct r as [[data|d] t]; repeat split. Qed.

(** ** resetConversation *)

(** X26: once the initialisation it starts has finished, [resetConversation]
    leaves a null conversation id, no error, no typing, no suggestions and
    a transcript that is exactly the greeting, connected, with the fetched
    features as capabilities (the all-false defaults when the fetch
    failed, whatever was stored before); when the fetched body is null or
    undefined the transcript is empty, Connected is false and the old
    capabilities are kept. *)
Theorem resetConversation_starts_over (r : reply jsval) (w : W) :
  let run := resetConversation r w in
  let fetched := match settle r with Ok data => data | Err _ => defaultCapabilities end in
  fst run = Fulfilled tt /\
  currentConversationId (store (snd run)) = JNull /\
  isTyping (store (snd run)) = false /\
  error (store (snd run)) = JNull /\
  suggestions (store (snd run)) = JArr [] /\
  (if nullish fetched
   then messages (store (snd run)) = [] /\
        isConnected (store (snd run)) = false /\
        capabilities (store (snd run)) = capabilities (store w)
   else messages (store (snd run)) = [greetingMessage (arrival r)] /\
        isConnected (store (snd run)) = true /\
        capabilities (store (snd run)) = js_or (opt_member fetched "features") (JObj [])).
Proof.
  cbn zeta. unfold resetConversation, bind, dispatch.
  destruct r as [[data|d] t]; cbn [settle].
  - destruct (nullish data) eqn:Hn.
    + destruct data; try discriminate Hn; repeat split.
    + erewrite initializeChatbot_greets; [|reflexivity|exact Hn]. repeat split.
  - erewrite (initializeChatbot_greets defaultCapabilities); [|reflexivity|reflexivity].
    repeat split.
Qed.

(** ** The reducer: the typing flag *)

(** X27: a transition of the Conversation Store that sets Error to a non-null
    value leaves Typing false. *)
Theorem chat_error_clears_typing (st : state) (a : action) :
  error (chatbotReducer st a) <> JNull ->
  (error (chatbotReducer st a) <> error st \/ exists payload, a = SET_ERROR payload) ->
  isTyping (chatbotReducer st a) = false.
Proof.
  intros Hset Hkind.
  destruct a; cbn in *; try reflexivity; try congruence;
    destruct Hkind as [Hchg | [p Heq]]; congruence.
Qed.

Lemma chat_error_clears_typing_witness :
  let st := chatbotReducer initialState (SET_TYPING true) in
  isTyping st = true /\
  isTyping (chatbotReducer st (SET_ERROR (JStr "Failed to send message"))) = false.
Proof.
  intros st. split; [reflexivity|].
  apply (chat_error_clears_typing st (SET_ERROR (JStr "Failed to send message"))).
  - cbn. discriminate.
  - right. eexists. reflexivity.
Defined.

(** ** Sessions *)

Lemma sendMessage_extends (rendered : state) (messageText : jsval) (r : reply jsval) (w : W) :
  exists b : Message,
    messages (store (snd (sendMessage rendered messageText r w))) =
    (messages (store w) ++ [userMessage messageText (clock w); b])%list.
Proof.
  destruct r as [[response|d] t].
  - destruct (nullish response) eqn:Hn.
    + rewrite (sendMessage_no_body _ _ _ _ _ Hn). cbn.
      eexists. rewrite <- app_assoc. reflexivity.
    + rewrite (sendMessage_fulfilled _ _ _ _ _ Hn). cbn [snd store].
      exists (botMessage response t). cbn [chatbotReducer messages].
      rewrite !(reduce_if_frame messages) by reflexivity.
      cbn. rewrite <- app_assoc. reflexivity.
  - rewrite sendMessage_rejected. cbn.
    eexists. rewrite <- app_assoc. reflexivity.
Qed.

Lemma sendMessage_not_typing (rendered : state) (messageText : jsval) (r : reply jsval) (w : W) :
  isTyping (store (snd (sendMessage rendered messageText r w))) = false.
Proof.
  destruct (sendMessage_outcome rendered messageText r w)
    as [(? & _ & _ & _ & _ & H)|(? & _ & _ & _ & H)]; exact H.
Qed.

(** Where [startNewConversation] leaves the store: untouched, with the
    new id only, or where the [sendMessage] it performs leaves it. *)
Lemma startNewConversation_store (rendered : state) (initialMessage : jsval)
      (r1 r2 : reply jsval) (w : W) :
  let run := startNewConversation rendered initialMessage r1 r2 w in
  store (snd run) = store w \/
  (exists conversationId,
      store (snd run) = chatbotReducer (store w) (SET_CONVERSATION_ID conversationId)) \/
  (exists started : W,
      messages (store started) = messages (store w) /\
      store (snd run) = store (snd (sendMessage rendered (default_null initialMessage)
                                                r2 started))).
Proof.
  cbn zeta. destruct r1 as [[response|d] t].
  - destruct (nullish response) eqn:Hn.
    + left. destruct response; try discriminate Hn; reflexivity.
    + destruct (truthy initialMessage) eqn:Hm.
      * right. right.
        assert (Hdn : default_null initialMessage = initialMessage)
          by (destruct initialMessage; try discriminate Hm; reflexivity).
        destruct (startNewConversation_with_message_run rendered initialMessage response
                    t r2 w Hm Hn) as [Hw _].
        cbn zeta in Hw. rewrite Hw, Hdn. eexists. split; [|reflexivity]. reflexivity.
      * right. left. exists (opt_member response "conversationId").
        unfold startNewConversation, startConversation. rewrite default_null_idem.
        rewrite truthy_default_null, Hm.
        unfold try_catch, bind, await_axios, get. cbn [settle arrival].
        rewrite (member_defined _ _ Hn). reflexivity.
  - left. unfold startNewConversation, startConversation. rewrite default_null_idem.
    reflexivity.
Qed.

Lemma perform_extends (c : call) (w : W) :
  resets c = false ->
  exists added : list Message,
    messages (store (snd (perform c w))) = (messages (store w) ++ added)%list.
Proof.
  intros Hc. destruct c as [r|m r|m r1 r2|r|f r| |r]; try discriminate Hc; unfold perform.
  - destruct r as [[data|d] t].
    + destruct (nullish data) eqn:Hn.
      * exists []. rewrite app_nil_r. destruct data; try discriminate Hn; reflexivity.
      * rewrite (initializeChatbot_greets data (Reply (Ok data) t) w)
          by (reflexivity || assumption). eexists. reflexivity.
    + rewrite (initializeChatbot_greets defaultCapabilities (Reply (Err d) t) w) by reflexivity.
      eexists. reflexivity.
  - destruct (sendMessage_extends (render w) m r w) as (b & Hb).
    unfold settles. destruct (sendMessage (render w) m r w) as [[v|e] w2];
      cbn [snd] in *; eauto.
  - destruct (startNewConversation_store (render w) m r1 r2 w)
      as [H|[(cid & H)|(started & Hs & H)]]; cbn zeta in H;
      unfold settles;
      destruct (startNewConversation (render w) m r1 r2 w) as [[v|e] w2];
      cbn [snd] in *; rewrite H.
    1,2: exists []; now rewrite app_nil_r.
    1,2: exists []; now rewrite app_nil_r.
    1,2: destruct (sendMessage_extends (render w) (default_null m) r2 started) as (b & ->);
      rewrite Hs; eauto.
  - exists []. rewrite app_nil_r. unfold reportFeedback.
    destruct (truthy (currentConversationId (render w))); destruct r as [[data|d] t];
      reflexivity.
  - exists []. now rewrite app_nil_r.
Qed.

Lemma chat_session_cons (c : call) (calls : list call) (w : W) :
  session (c :: calls) w = session calls (snd (perform c w)).
Proof. reflexivity. Qed.

(** X28: over a session without endConversation and resetConversation calls the
    transcript only grows at its end: the old transcript is a prefix of
    the new one, whatever failed in between. *)
Theorem session_keeps_transcript (calls : list call) (w : W) :
  forallb (fun c => negb (resets c)) calls = true ->
  exists added : list Message,
    messages (store (session calls w)) = (messages (store w) ++ added)%list.
Proof.
  revert w. induction calls as [|c calls IH]; intros w Hall.
  - exists []. now rewrite app_nil_r.
  - cbn in Hall. apply andb_prop in Hall as [Hc Hrest].
    apply negb_true_iff in Hc.
    rewrite chat_session_cons.
    destruct (IH (snd (perform c w)) Hrest) as (l2 & ->).
    destruct (perform_extends c w Hc) as (l1 & ->).
    exists (l1 ++ l2)%list. now rewrite app_assoc.
Qed.

Lemma session_keeps_transcript_witness :
  exists added : list Message,
    messages (store (session [InitializeChatbot (Reply (Err JNull) 1);
                              SendMessage (JStr "hello") (Reply (Ok JNull) 2);
                              StartNewConversation (JStr "again")
                                (Reply (Ok (JObj [])) 3) (Reply (Err JNull) 4)]
                             fresh_chat)) =
    (messages (store fresh_chat) ++ added)%list.
Proof.
  exact (session_keeps_transcript
           [InitializeChatbot (Reply (Err JNull) 1);
            SendMessage (JStr "hello") (Reply (Ok JNull) 2);
            StartNewConversation (JStr "again") (Reply (Ok (JObj [])) 3) (Reply (Err JNull) 4)]
           fresh_chat eq_refl).
Defined.

Lemma perform_not_typing (c : call) (w : W) :
  isTyping (store w) = false -> isTyping (store (snd (perform c w))) = false.
Proof.
  intros Hw. destruct c as [r|m r|m r1 r2|r|f r| |r]; unfold perform.
  - destruct r as [[data|d] t].
    + destruct (nullish data) eqn:Hn.
      * destruct data; try discriminate Hn; exact Hw.
      * rewrite (initializeChatbot_greets data (Reply (Ok data) t) w)
          by (reflexivity || assumption). exact Hw.
    + rewrite (initializeChatbot_greets defaultCapabilities (Reply (Err d) t) w) by reflexivity.
      exact Hw.
  - pose proof (sendMessage_not_typing (render w) m r w) as H.
    unfold settles. destruct (sendMessage (render w) m r w) as [[v|e] w2]; exact H.
  - destruct (startNewConversation_store (render w) m r1 r2 w)
      as [H|[(cid & H)|(started & Hs & H)]]; cbn zeta in H;
      unfold settles;
      destruct (startNewConversation (render w) m r1 r2 w) as [[v|e] w2];
      cbn [snd] in *; rewrite H; try exact Hw; apply sendMessage_not_typing.
  - unfold endConversation.
    destruct (truthy (currentConversationId (render w))); destruct r as [[data|d] t];
      reflexivity.
  - unfold reportFeedback.
    destruct (truthy (currentConversationId (render w))); destruct r as [[data|d] t];
      exact Hw.
  - exact Hw.
  - unfold resetConversation, bind, dispatch.
    destruct r as [[data|d] t].
    + destruct (nullish data) eqn:Hn.
      * destruct data; try discriminate Hn; reflexivity.
      * erewrite initializeChatbot_greets; [|reflexivity|exact Hn]. reflexivity.
    + erewrite (initializeChatbot_greets defaultCapabilities); [|reflexivity|reflexivity].
      reflexivity.
Qed.

(** X29: over any session of awaited calls that starts with Typing false, Typing
    is false again at the end. *)
Theorem session_not_typing (calls : list call) (w : W) :
  isTyping (store w) = false -> isTyping (store (session calls w)) = false.
Proof.
  revert w. induction calls as [|c calls IH]; intros w Hw; [exact Hw|].
  rewrite chat_session_cons. apply IH. now apply perform_not_typing.
Qed.

Lemma session_not_typing_witness :
  isTyping (store (session [SendMessage (JStr "hello") (Reply (Err JNull) 2);
                            EndConversation (Reply (Err JNull) 3)]
                           fresh_chat)) = false.
Proof. apply session_not_typing. reflexivity. Defined.

End ChatbotSession.

(** * The interceptors *)

Module InterceptorFacts.
Import interceptors.

Lemma other_status_ignored (z : Z) (b : browser) :
  z <> 401 -> apiClient_response_rejected (Some z) b = b.
Proof.
  intros Hz. unfold apiClient_response_rejected.
  destruct z as [|p|p]; try reflexivity.
  do 9 (destruct p as [p|p|]; try reflexivity).
  contradiction.
Qed.

(** X30: a 401 answer on [apiClient] removes the stored token and user, keeps
    every other stored key and sends the browser to /login, so that the
    next request carries no Authorization header; any other failure
    leaves the browser as it is (a stored non-empty token is still
    attached as a Bearer header), and [aiClient] never touches it. *)
Theorem unauthorized_signs_out (b : browser) (status : option Z)
        (headers : gmap string string) :
  let b' := apiClient_response_rejected status b in
  (status = Some 401 ->
   request_use b' headers = headers /\
   location_href b' = "/login" /\
   localStorage b' !! "authToken" = None /\
   localStorage b' !! "user" = None /\
   forall k, k <> "authToken" -> k <> "user" -> localStorage b' !! k = localStorage b !! k) /\
  (status <> Some 401 ->
   b' = b /\
   forall token, localStorage b !! "authToken" = Some token -> token <> "" ->
                 request_use b' headers !! "Authorization" = Some ("Bearer " ++ token)) /\
  aiClient_response_rejected status b = b.
Proof.
  cbn zeta. split; [|split; [|reflexivity]].
  - intros ->. cbn. unfold request_use. cbn.
    rewrite lookup_delete_ne by discriminate. rewrite lookup_delete_eq.
    repeat split.
    + apply lookup_delete_eq.
    + intros k Ha Hu. rewrite !lookup_delete_ne by congruence. reflexivity.
  - intros Hs.
    assert (Hb : apiClient_response_rejected status b = b).
    { destruct status as [z|]; [|reflexivity].
      apply other_status_ignored. congruence. }
    rewrite Hb. split; [reflexivity|].
    intros token Htok Hne. unfold request_use. rewrite Htok.
    destruct (String.eqb token "") eqn:E; [apply String.eqb_eq in E; contradiction|].
    apply lookup_insert_eq.
Qed.

Lemma unauthorized_signs_out_witness :
  let b := {| localStorage := <["authToken" := "abc"]> (<["theme" := "dark"]> ∅);
              location_href := "/dashboard" |} in
  let b' := apiClient_response_rejected (Some 401) b in
  request_use b ∅ !! "Authorization" = Some "Bearer abc" /\
  request_use b' ∅ = ∅ /\
  location_href b' = "/login" /\
  localStorage b' !! "theme" = Some "dark".
Proof.
  intros b b'.
  destruct (unauthorized_signs_out b (Some 401) ∅) as (H401 & _ & _).
  destruct (unauthorized_signs_out b (Some 500) ∅) as (_ & H500 & _).
  destruct (H401 eq_refl) as (H1 & H2 & _ & _ & H5).
  destruct (H500 ltac:(discriminate)) as (_ & H6).
  split; [exact (H6 "abc" eq_refl ltac:(discriminate))|].
  split; [exact H1|]. split; [exact H2|].
  unfold b'. rewrite (H5 "theme") by discriminate. reflexivity.
Defined.

End InterceptorFacts.
